(** * Serial Studio: the JSON frame generator

    A shallow embedding of [src/JSON/Generator.cpp] (classes
    [JSON::Generator] and [JSON::JSONWorker]) together with the part of
    [MQTT::Client] that relays frames ([isSubscribed], [onFrameReceived],
    [sendData], [onMessageReceived], the MQTT version index), and the
    properties of the frame-to-document pipeline that are stated about
    them.

    Conventions of the embedding.
    - [std::string] is a list of bytes ([std.string]); [find] and [replace]
      are the members of [std::string] used by the substitution loop.
    - [QString] and [QByteArray] are byte strings; the conversions between
      them and [std::string] ([toStdString], [fromStdString], [fromUtf8],
      [toUtf8]) are the identity on the underlying bytes.
    - [quint64] is [N] with the wrap-around of [m_frameCount++] written out.
    - The Qt services the code calls but does not define (the JSON parser,
      the JavaScript engine, [QString::split]) are the fields of the class
      [QtLib]; every general statement holds for any implementation of
      them.
    - A member function that reads or writes the generator and emits
      signals is a computation in the monad [M]: it threads the
      [Generator] record and appends to the list of emitted [Effect]s. *)

From Stdlib Require Import Ascii String NArith Lia DecimalString DecimalNat.
From stdpp Require Import gmap strings list fin_maps.

#[local] Set Warnings "-register-all".
#[local] Open Scope N_scope.
#[local] Open Scope nat_scope.

(** ** [std::string] *)

Module std.

Definition string := list ascii.

(** [std::to_string(int)] for a non-negative argument. *)
Definition to_string (n : nat) : string :=
  list_ascii_of_string (NilZero.string_of_uint (Nat.to_uint n)).

(** [s.compare(0, id.size(), id) == 0]: [id] occurs at the front of [s]. *)
Fixpoint starts_with (id s : string) : bool :=
  match id, s with
  | [], _ => true
  | c :: id', d :: s' => if Ascii.eqb c d then starts_with id' s' else false
  | _ :: _, [] => false
  end.

(** The scan of [find]: [s] is the text from position [p] on. *)
Fixpoint find_from (id s : string) (p : nat) : option nat :=
  if starts_with id s then Some p
  else match s with
       | [] => None
       | _ :: s' => find_from id s' (S p)
       end.

(** [s.find(id, pos)]: the least position [>= pos] where [id] occurs;
    [None] is [std::string::npos]. *)
Definition find (s id : string) (pos : nat) : option nat :=
  if decide (pos <= length s) then find_from id (drop pos s) pos else None.

(** [s.replace(pos, len, str)], for [pos <= s.size()] (the only calls made
    pass a position returned by [find]). *)
Definition replace (s : string) (pos len : nat) (str : string) : string :=
  take pos s ++ str ++ drop (pos + len) s.

End std.

(** ** Qt value types *)

Definition QString := string.
Definition QByteArray := string.
Definition QDateTime := N.

Definition toStdString (s : QString) : std.string := list_ascii_of_string s.
Definition fromStdString (s : std.string) : QString := string_of_list_ascii s.
Definition fromUtf8 (data : QByteArray) : QString := data.
Definition toUtf8 (s : QString) : QByteArray := s.

(** [quint64] arithmetic: [n++]. *)
Definition quint64_modulus : N := (2 ^ 64)%N.
Definition quint64_incr (n : N) : N := ((n + 1) mod quint64_modulus)%N.

(** [QJsonValue]; a double is carried as its bit pattern, it is never
    inspected by the generator. *)
Inductive QJsonValue :=
  | JsonNull
  | JsonBool (b : bool)
  | JsonDouble (bits : N)
  | JsonString (s : QString)
  | JsonArray (a : list QJsonValue)
  | JsonObject (o : gmap string QJsonValue)
  | JsonUndefined.

Abbreviation QJsonArray := (list QJsonValue).
Abbreviation QJsonObject := (gmap string QJsonValue).

Definition QJsonValue_toArray (v : QJsonValue) : QJsonArray :=
  match v with JsonArray a => a | _ => [] end.

Definition QJsonValue_toObject (v : QJsonValue) : QJsonObject :=
  match v with JsonObject o => o | _ => ∅ end.

Definition QJsonValue_toString (v : QJsonValue) : QString :=
  match v with JsonString s => s | _ => ""%string end.

(** [QJsonObject::value(key)] and [QJsonArray::at(i)]. *)
Definition QJsonObject_value (o : QJsonObject) (key : string) : QJsonValue :=
  default JsonUndefined (o !! key).

Definition QJsonArray_at (a : QJsonArray) (i : nat) : QJsonValue :=
  default JsonUndefined (a !! i).

(** [o.remove(key); o.insert(key, v)]. *)
Definition QJsonObject_reinsert (o : QJsonObject) (key : string) (v : QJsonValue)
  : QJsonObject :=
  <[key := v]> (delete key o).

Inductive QJsonDocument :=
  | DocNull
  | DocArray (a : QJsonArray)
  | DocObject (o : QJsonObject).

(** [QJsonDocument::object()]. *)
Definition QJsonDocument_object (d : QJsonDocument) : QJsonObject :=
  match d with DocObject o => o | _ => ∅ end.

(** [QJSValue], as far as the generator looks at it. *)
Record QJSValue := { isError : bool; QJSValue_toString : QString }.

(** The Qt services used by the generator. [fromJson] returns [None] when
    [QJsonParseError::error] is not [NoError] (the document is then null);
    [evaluate] runs a program on an engine, which it may change. *)
Class QtLib := {
  QJSEngine : Type;
  QJSEngine_new : QJSEngine;
  evaluate : QJSEngine -> QString -> QJSEngine * QJSValue;
  fromJson : QByteArray -> option QJsonDocument;
  split : QString -> QString -> list QString
}.

(** ** Frame information ([FrameInfo.h]) *)

(** Modelled from the spec: [JFI_Object], [JFI_CreateNew] and [JFI_Empty]
    are declared in [FrameInfo.h], which is not among the sources. An
    envelope carries a sequence number, a capture timestamp and a document;
    the empty envelope is distinguished, has sequence number 0 and no
    document content. *)
Inductive JFI_Object :=
  | JFI_CreateNew (n : N) (time : QDateTime) (doc : QJsonDocument)
  | JFI_Empty.

Definition JFI_frameNumber (info : JFI_Object) : N :=
  match info with JFI_CreateNew n _ _ => n | JFI_Empty => 0%N end.

Definition JFI_jsonDocument (info : JFI_Object) : option QJsonDocument :=
  match info with JFI_CreateNew _ _ doc => Some doc | JFI_Empty => None end.

(** ** The collaborators the generator asks *)

Inductive MQTTClientMode := ClientPublisher | ClientSubscriber.

Record MQTT_Client := {
  isConnectedToHost : bool;
  m_topic : QString;
  m_clientMode : MQTTClientMode
}.

(** [MQTT::Client::isSubscribed]. *)
Definition isSubscribed (c : MQTT_Client) : bool :=
  isConnectedToHost c
  && negb (bool_decide (m_topic c = ""%string))
  && match m_clientMode c with ClientSubscriber => true | ClientPublisher => false end.

(** What the singletons answer at the moment a slot runs. *)
Record Env := {
  CSV_Player_isOpen : bool;
  IO_Manager_connected : bool;
  MQTT_Client_instance : MQTT_Client;
  IO_Manager_separatorSequence : QString;
  currentDateTime : QDateTime;
  QFile_contents : QString -> option QByteArray
}.

(** Some data source is active: the disjunction [loadJFI] tests, with
    [isSubscribed] spelled out. *)
Definition sourceActive (env : Env) : Prop :=
  CSV_Player_isOpen env = true
  \/ IO_Manager_connected env = true
  \/ (isConnectedToHost (MQTT_Client_instance env) = true
      /\ m_topic (MQTT_Client_instance env) <> ""%string
      /\ m_clientMode (MQTT_Client_instance env) = ClientSubscriber).

(** ** Placeholder substitution (lines 344-358 and 453-467) *)

(** The [while] loop: [json] is rewritten in place, [start_pos] moves past
    each inserted value. [fuel] bounds the number of iterations; [None]
    means the bound was reached before [find] failed. *)
Fixpoint replaceOccurrences (fuel : nat) (id value json : std.string)
    (start_pos : nat) : option std.string :=
  match fuel with
  | O => None
  | S fuel' =>
      match std.find json id start_pos with
      | None => Some json
      | Some p =>
          replaceOccurrences fuel' id value
            (std.replace json p (length id) value) (p + length value)
      end
  end.

(** [std::string id = "%" + std::to_string(i + 1)]. *)
Definition placeholder (i : nat) : std.string :=
  "%"%char :: std.to_string (i + 1).

(** The [for] loop over the fields: [list] holds the fields from index [i]
    on. *)
Fixpoint addToJsonMap (i : nat) (list : list std.string) (json : std.string)
  : option std.string :=
  match list with
  | [] => Some json
  | value :: rest =>
      json' ← replaceOccurrences (S (length json)) (placeholder i) value json 0;
      addToJsonMap (S i) rest json'
  end.

(** ** Evaluation of the datasets (lines 365-403 and 474-512) *)

Section Documents.
Context `{QtLib}.

(** Body of the inner loop, at index [j]. *)
Definition evaluateDataset (j : nat) (st : QJsonArray * QJSEngine)
  : QJsonArray * QJSEngine :=
  let '(datasets, engine) := st in
  let dataset := QJsonValue_toObject (QJsonArray_at datasets j) in
  let value := QJsonValue_toString (QJsonObject_value dataset "v") in
  let '(engine', jsValue) := evaluate engine value in
  if isError jsValue then (datasets, engine')
  else
    (<[j := JsonObject
             (QJsonObject_reinsert dataset "v"
                (JsonString (QJSValue_toString jsValue)))]> datasets,
     engine').

(** Body of the outer loop, at index [i]. *)
Definition evaluateGroup (i : nat) (st : QJsonArray * QJSEngine)
  : QJsonArray * QJSEngine :=
  let '(groups, engine) := st in
  let group := QJsonValue_toObject (QJsonArray_at groups i) in
  let datasets := QJsonValue_toArray (QJsonObject_value group "d") in
  let '(datasets', engine') :=
    foldl (fun st j => evaluateDataset j st) (datasets, engine)
      (seq 0 (length datasets)) in
  (<[i := JsonObject (QJsonObject_reinsert group "d" (JsonArray datasets'))]>
     groups,
   engine').

(** From [auto root = jsonDocument.object()] to
    [document = QJsonDocument(root)]. *)
Definition evaluateDatasets (jsonDocument : QJsonDocument) (engine : QJSEngine)
  : QJsonDocument * QJSEngine :=
  let root := QJsonDocument_object jsonDocument in
  let groups := QJsonValue_toArray (QJsonObject_value root "g") in
  let '(groups', engine') :=
    foldl (fun st i => evaluateGroup i st) (groups, engine)
      (seq 0 (length groups)) in
  (DocObject (QJsonObject_reinsert root "g" (JsonArray groups')), engine').

(** The fields of a frame, as [std::string]s. *)
Definition frameFields (env : Env) (data : QByteArray) : list std.string :=
  toStdString <$> split (fromUtf8 data) (IO_Manager_separatorSequence env).

End Documents.

(** ** The generator *)

Inductive OperationMode := kManual | kAutomatic.

#[global] Instance OperationMode_eq_dec : EqDecision OperationMode.
Proof. solve_decision. Defined.

(** [QFile m_jsonMap]. *)
Record QFile := { fileName : QString; isOpen : bool }.

(** One worker object: what its constructor stores. *)
Record JSONWorker := {
  m_time : QDateTime;
  m_data : QByteArray;
  m_frame : N
}.

(** Signals emitted and things started while a slot runs, in order. *)
Inductive Effect :=
  | jsonChanged (info : JFI_Object)
  | jsonFileMapChanged
  | operationModeChanged
  | processFramesInSeparateThreadChanged
  | showMessageBox (title : QString)
  | threadStart (worker : JSONWorker)
  | jsonReady (info : JFI_Object)
  | finished.

Section Generator.
Context `{QtLib}.

Record Generator := {
  m_frameCount : N;
  m_opMode : OperationMode;
  m_processInSeparateThread : bool;
  m_jsonMap : QFile;
  m_jsonMapData : QString;
  m_settings : QString;      (* the value stored under "json_map_location" *)
  m_engine : QJSEngine
}.

(** A member function: from the generator before to the result, the
    generator after and what was emitted; [None] only when a bounded loop
    ran out of fuel. *)
Definition M (A : Type) : Type :=
  Generator -> option (A * Generator * list Effect).

#[export] Instance M_ret : MRet M := fun A a g => Some (a, g, []).

#[export] Instance M_bind : MBind M := fun A B f m g =>
  match m g with
  | None => None
  | Some (a, g', out) =>
      match f a g' with
      | None => None
      | Some (b, g'', out') => Some (b, g'', out ++ out')
      end
  end.

Definition this : M Generator := fun g => Some (g, g, []).
Definition emit (e : Effect) : M unit := fun g => Some (tt, g, [e]).
Definition terminating {A} (r : option A) : M A :=
  fun g => match r with Some a => Some (a, g, []) | None => None end.

(** Assignments to the members. *)
Definition with_frameCount (n : N) (g : Generator) : Generator :=
  {| m_frameCount := n; m_opMode := m_opMode g;
     m_processInSeparateThread := m_processInSeparateThread g;
     m_jsonMap := m_jsonMap g; m_jsonMapData := m_jsonMapData g;
     m_settings := m_settings g; m_engine := m_engine g |}.

Definition with_opMode (mode : OperationMode) (g : Generator) : Generator :=
  {| m_frameCount := m_frameCount g; m_opMode := mode;
     m_processInSeparateThread := m_processInSeparateThread g;
     m_jsonMap := m_jsonMap g; m_jsonMapData := m_jsonMapData g;
     m_settings := m_settings g; m_engine := m_engine g |}.

Definition with_processInSeparateThread (threaded : bool) (g : Generator)
  : Generator :=
  {| m_frameCount := m_frameCount g; m_opMode := m_opMode g;
     m_processInSeparateThread := threaded;
     m_jsonMap := m_jsonMap g; m_jsonMapData := m_jsonMapData g;
     m_settings := m_settings g; m_engine := m_engine g |}.

Definition with_jsonMap (f : QFile) (g : Generator) : Generator :=
  {| m_frameCount := m_frameCount g; m_opMode := m_opMode g;
     m_processInSeparateThread := m_processInSeparateThread g;
     m_jsonMap := f; m_jsonMapData := m_jsonMapData g;
     m_settings := m_settings g; m_engine := m_engine g |}.

Definition with_jsonMapData (s : QString) (g : Generator) : Generator :=
  {| m_frameCount := m_frameCount g; m_opMode := m_opMode g;
     m_processInSeparateThread := m_processInSeparateThread g;
     m_jsonMap := m_jsonMap g; m_jsonMapData := s;
     m_settings := m_settings g; m_engine := m_engine g |}.

Definition with_settings (path : QString) (g : Generator) : Generator :=
  {| m_frameCount := m_frameCount g; m_opMode := m_opMode g;
     m_processInSeparateThread := m_processInSeparateThread g;
     m_jsonMap := m_jsonMap g; m_jsonMapData := m_jsonMapData g;
     m_settings := path; m_engine := m_engine g |}.

Definition with_engine (e : QJSEngine) (g : Generator) : Generator :=
  {| m_frameCount := m_frameCount g; m_opMode := m_opMode g;
     m_processInSeparateThread := m_processInSeparateThread g;
     m_jsonMap := m_jsonMap g; m_jsonMapData := m_jsonMapData g;
     m_settings := m_settings g; m_engine := e |}.

Definition modify (f : Generator -> Generator) : M unit :=
  fun g => Some (tt, f g, []).

Definition set_frameCount (n : N) : M unit := modify (with_frameCount n).
Definition set_opMode (mode : OperationMode) : M unit := modify (with_opMode mode).
Definition set_processInSeparateThread (threaded : bool) : M unit :=
  modify (with_processInSeparateThread threaded).
Definition set_jsonMap (f : QFile) : M unit := modify (with_jsonMap f).
Definition set_jsonMapData (s : QString) : M unit := modify (with_jsonMapData s).
Definition set_engine (e : QJSEngine) : M unit := modify (with_engine e).

(** [Generator::writeSettings]. *)
Definition writeSettings (path : QString) : M unit := modify (with_settings path).

(** [m_jsonMap.close()] and [m_jsonMap.setFileName(path)]. *)
Definition jsonMap_close : M unit :=
  g ← this;
  set_jsonMap {| fileName := fileName (m_jsonMap g); isOpen := false |}.

Definition jsonMap_setFileName (path : QString) : M unit :=
  g ← this;
  set_jsonMap {| fileName := path; isOpen := isOpen (m_jsonMap g) |}.

(** [Generator::loadJsonMap(const QString &path)], lines 140-192. *)
Definition loadJsonMap (env : Env) (path : QString) : M unit :=
  if decide (path = ""%string) then mret tt
  else
    g ← this;
    (if isOpen (m_jsonMap g)
     then jsonMap_close;; set_jsonMapData "";; emit jsonFileMapChanged
     else mret tt);;
    jsonMap_setFileName path;;
    match QFile_contents env path with
    | Some data =>
        set_jsonMap {| fileName := path; isOpen := true |};;
        match fromJson data with
        | None =>
            jsonMap_close;;
            writeSettings "";;
            emit (showMessageBox "JSON parse error")
        | Some document =>
            writeSettings path;;
            set_jsonMapData (fromUtf8 data)
        end
    | None =>
        set_jsonMapData "";;
        writeSettings "";;
        emit (showMessageBox "Cannot read JSON file");;
        jsonMap_close
    end;;
    emit jsonFileMapChanged.

(** [Generator::setOperationMode]. *)
Definition setOperationMode (mode : OperationMode) : M unit :=
  set_opMode mode;; emit operationModeChanged.

(** [Generator::setProcessFramesInSeparateThread]. *)
Definition setProcessFramesInSeparateThread (threaded : bool) : M unit :=
  set_processInSeparateThread threaded;;
  emit processFramesInSeparateThreadChanged.

(** [Generator::readSettings]. *)
Definition readSettings (env : Env) : M unit :=
  g ← this;
  let path := m_settings g in
  if decide (path = ""%string) then mret tt else loadJsonMap env path.

(** [Generator::reset], lines 271-275. *)
Definition reset : M unit :=
  set_frameCount 0%N;; emit (jsonChanged JFI_Empty).

(** [Generator::loadJFI], lines 237-248. *)
Definition loadJFI (env : Env) (info : JFI_Object) : M unit :=
  let csvOpen := CSV_Player_isOpen env in
  let devOpen := IO_Manager_connected env in
  let mqttSub := isSubscribed (MQTT_Client_instance env) in
  if csvOpen || devOpen || mqttSub then emit (jsonChanged info) else reset.

(** [Generator::loadJSON], lines 261-266. *)
Definition loadJSON (env : Env) (json : QJsonDocument) : M unit :=
  g ← this;
  set_frameCount (quint64_incr (m_frameCount g));;
  g ← this;
  loadJFI env (JFI_CreateNew (m_frameCount g) (currentDateTime env) json).

(** [Generator::processFrame], lines 325-409. *)
Definition processFrame (env : Env) (data : QByteArray) (frame : N)
    (time : QDateTime) : M unit :=
  g ← this;
  match m_opMode g with
  | kAutomatic =>
      match fromJson data with
      | Some document => emit (jsonChanged (JFI_CreateNew frame time document))
      | None => mret tt
      end
  | kManual =>
      if decide (m_jsonMapData g = ""%string) then mret tt
      else
        json ← terminating
          (addToJsonMap 0 (frameFields env data) (toStdString (m_jsonMapData g)));
        let jsonData := toUtf8 (fromStdString json) in
        let parsed := fromJson jsonData in
        let '(document, engine) :=
          evaluateDatasets (default DocNull parsed) (m_engine g) in
        set_engine engine;;
        match parsed with
        | Some _ => emit (jsonChanged (JFI_CreateNew frame time document))
        | None => mret tt
        end
  end.

(** [Generator::readData], lines 290-319. *)
Definition readData (env : Env) (data : QByteArray) : M unit :=
  if CSV_Player_isOpen env then mret tt
  else if decide (data = ""%string) then mret tt
  else
    g ← this;
    set_frameCount (quint64_incr (m_frameCount g));;
    g ← this;
    if m_processInSeparateThread g
    then emit (threadStart {| m_time := currentDateTime env;
                              m_data := data;
                              m_frame := m_frameCount g |})
    else processFrame env data (m_frameCount g) (currentDateTime env).

(** The constructor, lines 45-57: the initial members, then
    [readSettings]. [settings] is what the settings file holds. *)
Definition Generator_new (env : Env) (settings : QString)
  : option (unit * Generator * list Effect) :=
  readSettings env
    {| m_frameCount := 0%N; m_opMode := kAutomatic;
       m_processInSeparateThread := false;
       m_jsonMap := {| fileName := ""%string; isOpen := false |};
       m_jsonMapData := ""%string;
       m_settings := settings;
       m_engine := QJSEngine_new |}.

(** [JSONWorker::process], lines 431-524. It runs on the worker's thread
    and reads the generator through [Generator::getInstance()]: [g] is the
    generator at that moment. The result is what the worker emits. *)
Definition JSONWorker_process (env : Env) (g : Generator) (w : JSONWorker)
  : option (list Effect) :=
  match m_opMode g with
  | kAutomatic =>
      match fromJson (m_data w) with
      | Some document =>
          Some [jsonReady (JFI_CreateNew (m_frame w) (m_time w) document);
                finished]
      | None => Some [finished]
      end
  | kManual =>
      if decide (m_jsonMapData g = ""%string) then Some []
      else
        let engine := QJSEngine_new in
        json ← addToJsonMap 0 (frameFields env (m_data w))
                 (toStdString (m_jsonMapData g));
        let jsonData := toUtf8 (fromStdString json) in
        let parsed := fromJson jsonData in
        let '(document, _) := evaluateDatasets (default DocNull parsed) engine in
        match parsed with
        | Some _ =>
            Some [jsonReady (JFI_CreateNew (m_frame w) (m_time w) document);
                  finished]
        | None => Some [finished]
        end
  end.

End Generator.

(** ** The generator among its threads *)

(** What happens to the application, one event at a time: the slots of the
    generator run on the main thread; a worker started by [readData] runs
    [process] later, on its own thread, and its [jsonReady] signal is queued
    to the main thread, where it calls [loadJFI]. *)
Inductive Event :=
  | frameReceived (data : QByteArray)       (* IO::Manager -> readData *)
  | deviceChanged                           (* IO::Manager -> reset *)
  | openChanged                             (* CSV::Player -> reset *)
  | call_loadJsonMap (path : QString)
  | call_setOperationMode (mode : OperationMode)
  | call_setProcessFramesInSeparateThread (threaded : bool)
  | call_loadJSON (json : QJsonDocument)
  | threadStarted (k : nat)                 (* worker k runs process() *)
  | jsonReadyReceived.                      (* oldest queued jsonReady -> loadJFI *)

Definition startedWorkers (out : list Effect) : list JSONWorker :=
  omap (fun e => match e with threadStart w => Some w | _ => None end) out.

Definition readyFrames (out : list Effect) : list JFI_Object :=
  omap (fun e => match e with jsonReady info => Some info | _ => None end) out.

(** The envelopes handed to the consumers. *)
Definition envelopes (out : list Effect) : list JFI_Object :=
  omap (fun e => match e with jsonChanged info => Some info | _ => None end) out.

Section System.
Context `{QtLib}.

Record System := {
  generator : Generator;
  workers : list JSONWorker;      (* started, [process] not yet run *)
  queued : list JFI_Object        (* [jsonReady] emitted, not yet delivered *)
}.

(** A slot of the generator run on the main thread. *)
Definition runSlot (slot : M unit) (sys : System) (queued' : list JFI_Object)
  : option (System * list Effect) :=
  match slot (generator sys) with
  | None => None
  | Some (_, g', out) =>
      Some ({| generator := g';
               workers := workers sys ++ startedWorkers out;
               queued := queued' |}, out)
  end.

Definition dispatch (env : Env) (ev : Event) (sys : System)
  : option (System * list Effect) :=
  match ev with
  | frameReceived data => runSlot (readData env data) sys (queued sys)
  | deviceChanged | openChanged => runSlot reset sys (queued sys)
  | call_loadJsonMap path => runSlot (loadJsonMap env path) sys (queued sys)
  | call_setOperationMode mode => runSlot (setOperationMode mode) sys (queued sys)
  | call_setProcessFramesInSeparateThread threaded =>
      runSlot (setProcessFramesInSeparateThread threaded) sys (queued sys)
  | call_loadJSON json => runSlot (loadJSON env json) sys (queued sys)
  | threadStarted k =>
      match workers sys !! k with
      | None => Some (sys, [])
      | Some w =>
          out ← JSONWorker_process env (generator sys) w;
          Some ({| generator := generator sys;
                   workers := delete k (workers sys);
                   queued := queued sys ++ readyFrames out |}, out)
      end
  | jsonReadyReceived =>
      match queued sys with
      | [] => Some (sys, [])
      | info :: rest => runSlot (loadJFI env info) sys rest
      end
  end.

(** A run: each event with the answers of the collaborators at its time. *)
Fixpoint run (events : list (Env * Event)) (sys : System)
  : option (System * list Effect) :=
  match events with
  | [] => Some (sys, [])
  | (env, ev) :: rest =>
      '(sys', out) ← dispatch env ev sys;
      '(sys'', out') ← run rest sys';
      Some (sys'', out ++ out')
  end.

(** [readData] accepts the frame: it passes both guards. *)
Definition accepted (env : Env) (data : QByteArray) : bool :=
  negb (CSV_Player_isOpen env) && negb (bool_decide (data = ""%string)).

(** Events that take no frame in: everything but an accepted
    [frameReceived] and [loadJSON]. *)
Definition takesNoFrame (e : Env * Event) : bool :=
  match e.2 with
  | frameReceived data => negb (accepted e.1 data)
  | call_loadJSON _ => false
  | _ => true
  end.

(** The frames taken in by a run: accepted raw frames and documents
    handed to [loadJSON]. *)
Definition framesTaken (events : list (Env * Event)) : nat :=
  length (filter (fun e => takesNoFrame e = false) events).

(** An accepted frame that yields no document: in automatic mode the frame
does not parse; in manual mode there is no template, or the template with
the fields written in does not parse. *)
Definition yieldsNoDocument (env : Env) (data : QByteArray) (g : Generator)
  : Prop :=
  match m_opMode g with
  | kAutomatic => fromJson data = None
  | kManual =>
      m_jsonMapData g = ""%string
      \/ exists json,
           addToJsonMap 0 (frameFields env data) (toStdString (m_jsonMapData g))
           = Some json
           /\ fromJson (toUtf8 (fromStdString json)) = None
  end.

(** The template store is consistent: a template text is held only while
    the file it was read from is open. *)
Definition storeConsistent (g : Generator) : Prop :=
  m_jsonMapData g <> ""%string -> isOpen (m_jsonMap g) = true.

(** The states the application can be in: it starts with the generator
    as its constructor leaves it, and goes on by events. *)
Inductive Reachable : System -> Prop :=
  | Reachable_start env settings g out :
      Generator_new env settings = Some (tt, g, out) ->
      Reachable {| generator := g; workers := []; queued := [] |}
  | Reachable_dispatch env ev sys sys' out :
      Reachable sys ->
      dispatch env ev sys = Some (sys', out) ->
      Reachable sys'.

End System.

(** ** Reading the loops *)

(** One pass of the substitution read as a left-to-right scan of the text:
    at an occurrence of [id] the value is written and the occurrence is
    skipped ([skip] counts the characters of it still to pass); any other
    character is copied. *)
Fixpoint replaceAll (id value : std.string) (skip : nat) (s : std.string)
  : std.string :=
  match s with
  | [] => []
  | c :: s' =>
      match skip with
      | S k => replaceAll id value k s'
      | O =>
          if std.starts_with id s
          then value ++ replaceAll id value (length id - 1) s'
          else c :: replaceAll id value 0 s'
      end
  end.

(** A map over a list that threads a state from left to right. *)
Fixpoint mapS {A St : Type} (f : A -> St -> A * St) (l : list A) (s : St)
  : list A * St :=
  match l with
  | [] => ([], s)
  | x :: l' =>
      let '(y, s') := f x s in
      let '(l'', s'') := mapS f l' s' in
      (y :: l'', s'')
  end.

Section Reading.
Context `{QtLib}.

(** What the inner loop makes of one element of a "d" array. *)
Definition evaluatedDataset (d : QJsonValue) (engine : QJSEngine)
  : QJsonValue * QJSEngine :=
  let dataset := QJsonValue_toObject d in
  let value := QJsonValue_toString (QJsonObject_value dataset "v") in
  let '(engine', jsValue) := evaluate engine value in
  (if isError jsValue then d
   else JsonObject (QJsonObject_reinsert dataset "v"
                      (JsonString (QJSValue_toString jsValue))),
   engine').

(** What the outer loop makes of one element of the "g" array. *)
Definition evaluatedGroup (g : QJsonValue) (engine : QJSEngine)
  : QJsonValue * QJSEngine :=
  let group := QJsonValue_toObject g in
  let '(datasets', engine') :=
    mapS evaluatedDataset
      (QJsonValue_toArray (QJsonObject_value group "d")) engine in
  (JsonObject (QJsonObject_reinsert group "d" (JsonArray datasets')), engine').

(** The dataset at position [j] of group [i] of a document. *)
Definition datasetAt (doc : QJsonDocument) (i j : nat) : option QJsonValue :=
  g ← QJsonValue_toArray (QJsonObject_value (QJsonDocument_object doc) "g") !! i;
  QJsonValue_toArray (QJsonObject_value (QJsonValue_toObject g) "d") !! j.

(** The text the loop evaluates for a dataset, and these texts for a group
and for a document, in the order the loops visit them. *)
Definition datasetValue (d : QJsonValue) : QString :=
  QJsonValue_toString (QJsonObject_value (QJsonValue_toObject d) "v").

Definition groupValues (g : QJsonValue) : list QString :=
  datasetValue <$> QJsonValue_toArray (QJsonObject_value (QJsonValue_toObject g) "d").

Definition datasetValues (doc : QJsonDocument) : list QString :=
  g ← QJsonValue_toArray (QJsonObject_value (QJsonDocument_object doc) "g");
  groupValues g.

(** The texts evaluated before the loops reach the dataset at position [j]
of group [i]: those of the groups before [i], then those of the datasets
before [j] in group [i]. *)
Definition valuesBefore (doc : QJsonDocument) (i j : nat) : list QString :=
  let groups := QJsonValue_toArray (QJsonObject_value (QJsonDocument_object doc) "g") in
  (take i groups ≫= groupValues) ++ take j (groupValues (QJsonArray_at groups i)).

(** The engine after it has run the programs [values], one after the
other. *)
Definition engineAfter (values : list QString) (engine : QJSEngine) : QJSEngine :=
  foldl (fun e v => (evaluate e v).1) engine values.

(** [document'] is [document] with its datasets evaluated from [engine] on:
each dataset is evaluated on the engine as the datasets before it have left
it; when the result is not an error the dataset has the text of the result
under "v" and its other members as before, and when it is an error the
dataset is as it was. *)
Definition datasetsEvaluated (engine : QJSEngine)
    (document document' : QJsonDocument) : Prop :=
  forall i j d,
    datasetAt document i j = Some d ->
    let jsValue :=
      (evaluate (engineAfter (valuesBefore document i j) engine)
         (datasetValue d)).2 in
    (isError jsValue = false ->
     exists dataset',
       datasetAt document' i j = Some (JsonObject dataset')
       /\ dataset' !! "v"%string = Some (JsonString (QJSValue_toString jsValue))
       /\ forall key, key <> "v"%string ->
            dataset' !! key = QJsonValue_toObject d !! key)
    /\ (isError jsValue = true -> datasetAt document' i j = Some d).

End Reading.

(** The whole substitution read as one scan per field. *)
Fixpoint substituted (i : nat) (list : list std.string) (json : std.string)
  : std.string :=
  match list with
  | [] => json
  | value :: rest => substituted (S i) rest (replaceAll (placeholder i) value 0 json)
  end.

(** ** An instance of the Qt services, for the examples *)

(** The examples below run the generator on a few concrete frames. They
    need the Qt services only on these inputs: the parser on the text [{}]
    and on templates of the shape [{"g":[{"d":[{"v":"..."}]}]}] whose value
    is plain printable text, the engine on four programs, and [split] with a
    non-empty separator. On these the definitions below answer what Qt
    answers; elsewhere the parser and the engine report an error, which no
    example relies on. *)

Definition quote : string := String "034"%char EmptyString.

Definition quoted (s : string) : string := quote +:+ s +:+ quote.

Definition templateHead : string :=
  "{" +:+ quoted "g" +:+ ":[{" +:+ quoted "d" +:+ ":[{" +:+ quoted "v" +:+ ":" +:+ quote.

Definition templateTail : string := quote +:+ "}]}]}".

Definition templateText (v : string) : string :=
  templateHead +:+ v +:+ templateTail.

Definition templateDocument (v : string) : QJsonDocument :=
  DocObject
    {[ "g"%string :=
         JsonArray
           [JsonObject
              {[ "d"%string :=
                   JsonArray [JsonObject {[ "v"%string := JsonString v ]}] ]}] ]}.

(** Printable ASCII other than the quote and the backslash. *)
Definition plainChar (c : ascii) : bool :=
  let n := nat_of_ascii c in
  (32 <=? n) && (n <? 127) && negb (n =? 34) && negb (n =? 92).

Definition example_fromJson (data : QByteArray) : option QJsonDocument :=
  if decide (data = "{}"%string) then Some (DocObject ∅)
  else
    let text := toStdString data in
    let head := toStdString templateHead in
    let tail := toStdString templateTail in
    let rest := drop (length head) text in
    let value := take (length rest - length tail) rest in
    if std.starts_with head text
       && std.starts_with (reverse tail) (reverse rest)
       && forallb plainChar value
    then Some (templateDocument (fromStdString value))
    else None.

(** The engine keeps its global object from one program to the next; of it
    the examples use one global variable [n], held as a number (0 while it
    is undefined). *)
Definition counterProgram : QString := "var n; n = (n || 0) + 1".

Definition example_evaluate (engine : N) (program : QString) : N * QJSValue :=
  if decide (program = counterProgram) then
    ((engine + 1)%N,
     {| isError := false;
        QJSValue_toString := NilZero.string_of_uint (N.to_uint (engine + 1)) |})
  else if decide (program = "42"%string) then
    (engine, {| isError := false; QJSValue_toString := "42" |})
  else if decide (program = "21 * 2"%string) then
    (engine, {| isError := false; QJSValue_toString := "42" |})
  else
    (engine, {| isError := true; QJSValue_toString := "SyntaxError" |}).

(** [QString::split(sep)] for a non-empty separator, empty parts kept. *)
Fixpoint example_split_from (sep : std.string) (skip : nat) (part s : std.string)
  : list std.string :=
  match s with
  | [] => [reverse part]
  | c :: s' =>
      match skip with
      | S k => example_split_from sep k part s'
      | O =>
          if std.starts_with sep s
          then reverse part :: example_split_from sep (length sep - 1) [] s'
          else example_split_from sep 0 (c :: part) s'
      end
  end.

Definition example_split (s sep : QString) : list QString :=
  fromStdString <$> example_split_from (toStdString sep) 0 [] (toStdString s).

Definition exampleQt : QtLib := {|
  QJSEngine := N;
  QJSEngine_new := 0%N;
  evaluate := example_evaluate;
  fromJson := example_fromJson;
  split := example_split
|}.

(** The collaborators in three situations: a device connected, the replay
    player open, and nothing active. Each offers the file [map.json] holding
    the template with value [%1 * 2] and the file [empty.json] holding
    [{}]; the separator is a comma. *)
Definition exampleFiles (path : QString) : option QByteArray :=
  if decide (path = "map.json"%string) then Some (templateText "%1 * 2")
  else if decide (path = "empty.json"%string) then Some "{}"%string
  else if decide (path = "broken.json"%string) then Some "{"%string
  else None.

Definition exampleClient : MQTT_Client :=
  {| isConnectedToHost := false; m_topic := ""; m_clientMode := ClientPublisher |}.

Definition deviceConnected : Env :=
  {| CSV_Player_isOpen := false; IO_Manager_connected := true;
     MQTT_Client_instance := exampleClient;
     IO_Manager_separatorSequence := ",";
     currentDateTime := 1000%N; QFile_contents := exampleFiles |}.

Definition replayOpen : Env :=
  {| CSV_Player_isOpen := true; IO_Manager_connected := false;
     MQTT_Client_instance := exampleClient;
     IO_Manager_separatorSequence := ",";
     currentDateTime := 1000%N; QFile_contents := exampleFiles |}.

Definition nothingActive : Env :=
  {| CSV_Player_isOpen := false; IO_Manager_connected := false;
     MQTT_Client_instance := exampleClient;
     IO_Manager_separatorSequence := ",";
     currentDateTime := 1000%N; QFile_contents := exampleFiles |}.

(** A generator of the example instance, by its members. *)
Definition exampleGenerator (count : N) (mode : OperationMode) (threaded : bool)
    (map : QString) : @Generator exampleQt :=
  @Build_Generator exampleQt count mode threaded
    {| fileName := (if decide (map = ""%string) then "" else "map.json")%string;
       isOpen := negb (bool_decide (map = ""%string)) |}
    map
    (if decide (map = ""%string) then "" else "map.json")%string
    0%N.

Definition exampleSystem (g : @Generator exampleQt) : @System exampleQt :=
  @Build_System exampleQt g [] [].

(** ** The file of the template, as the generator reports it *)

Section MapFile.
Context `{QtLib}.

(** [QFileInfo::fileName] and [QFileInfo::filePath] of Qt, as functions of
the name given to the file. *)
Variable QFileInfo_fileName : QString -> QString.
Variable QFileInfo_filePath : QString -> QString.

(** [Generator::jsonMapFilename], lines 81-90. *)
Definition jsonMapFilename (g : Generator) : QString :=
  if isOpen (m_jsonMap g) then QFileInfo_fileName (fileName (m_jsonMap g))
  else ""%string.

(** [Generator::jsonMapFilepath], lines 95-104. *)
Definition jsonMapFilepath (g : Generator) : QString :=
  if isOpen (m_jsonMap g) then QFileInfo_filePath (fileName (m_jsonMap g))
  else ""%string.

(** [Generator::loadJsonMap()], lines 124-135: [file] is what the file
dialog returns. *)
Definition loadJsonMap_selected (env : Env) (file : QString) : M unit :=
  if decide (file = ""%string) then mret tt else loadJsonMap env file.

End MapFile.

(** ** The MQTT client: the frames it relays ([MQTT::Client]) *)

(** A [QMQTT::Message], by what the client passes to its constructor and
reads from it. *)
Record QMQTT_Message := {
  message_id : N;
  message_topic : QString;
  message_payload : QByteArray
}.

(** What the client asks of its collaborators: the QMQTT client to publish
a message, the I/O manager to process a payload. *)
Inductive ClientEffect :=
  | publish (message : QMQTT_Message)
  | processPayload (payload : QByteArray).

(** The members of the client that the relay of frames uses: the
connection, topic and mode, the number of messages sent, and the frames
received since the last message. *)
Record Client := {
  m_connection : MQTT_Client;
  m_sentMessages : N;
  m_frames : list QByteArray
}.

Definition newline : ascii := "010"%char.

(** [data.append(frame)] and [data.append("\n")]. *)
Definition appendLine (data frame : QByteArray) : QByteArray :=
  (data +:+ frame) +:+ String newline EmptyString.

(** [QByteArray::endsWith(char)]. *)
Definition QByteArray_endsWith (data : QByteArray) (c : ascii) : bool :=
  match last (list_ascii_of_string data) with
  | Some c' => bool_decide (c' = c)
  | None => false
  end.

Section Relay.

(** [++m_sentMessages]: the integer type of the member is declared in
[Client.h], which is not among the sources; its increment is a parameter. *)
Variable sentMessages_incr : N -> N.

(** [Client::onFrameReceived], lines 700-713; [connected] is what
[IO::Manager::connected] answers. *)
Definition onFrameReceived (connected : bool) (frame : QByteArray) (c : Client)
  : Client :=
  if negb connected then c
  else
    match m_clientMode (m_connection c) with
    | ClientSubscriber => c
    | ClientPublisher =>
        if decide (frame = ""%string) then c
        else {| m_connection := m_connection c;
                m_sentMessages := m_sentMessages c;
                m_frames := m_frames c ++ [frame] |}
    end.

(** [Client::sendData], lines 520-542. *)
Definition sendData (c : Client) : Client * list ClientEffect :=
  let data := foldl appendLine ""%string (m_frames c) in
  if decide (data = ""%string) then
    ({| m_connection := m_connection c;
        m_sentMessages := m_sentMessages c;
        m_frames := [] |}, [])
  else
    ({| m_connection := m_connection c;
        m_sentMessages := sentMessages_incr (m_sentMessages c);
        m_frames := [] |},
     [publish {| message_id := m_sentMessages c;
                 message_topic := m_topic (m_connection c);
                 message_payload := data |}]).

(** [Client::resetStatistics], lines 547-551. *)
Definition resetStatistics (c : Client) : Client :=
  {| m_connection := m_connection c; m_sentMessages := 0%N; m_frames := [] |}.

(** [Client::onMessageReceived], lines 743-763. It changes no member. *)
Definition onMessageReceived (message : QMQTT_Message) (c : Client)
  : list ClientEffect :=
  match m_clientMode (m_connection c) with
  | ClientPublisher => []
  | ClientSubscriber =>
      let mtopic := message_topic message in
      let mpayld := message_payload message in
      if decide (m_topic (m_connection c) = mtopic) then
        [processPayload
           (if QByteArray_endsWith mpayld newline then mpayld
            else mpayld +:+ String newline EmptyString)]
      else []
  end.

End Relay.

(** The MQTT versions of QMQTT, and the part of the QMQTT client that
[mqttVersion] and [setMqttVersion] use: [version()] returns what
[setVersion] stored. *)
Inductive QMQTT_MQTTVersion := V3_1_0 | V3_1_1.

(** [Client::mqttVersion], lines 127-143, of the version the QMQTT client
holds. *)
Definition mqttVersion (version : QMQTT_MQTTVersion) : Z :=
  match version with
  | V3_1_0 => 0%Z
  | V3_1_1 => 1%Z
  end.

(** [Client::setMqttVersion], lines 498-515: the version the QMQTT client
holds afterwards. *)
Definition setMqttVersion (versionIndex : Z) (version : QMQTT_MQTTVersion)
  : QMQTT_MQTTVersion :=
  if decide (versionIndex = 0%Z) then V3_1_0
  else if decide (versionIndex = 1%Z) then V3_1_1
  else version.

(** ** More states of the application *)

Section MoreSystem.
Context `{QtLib}.

(** The envelopes that wait for delivery come from workers, and the workers
that wait to run hold a frame that [readData] accepted. *)
Definition queueProper (sys : System) : Prop :=
  Forall (fun info => info <> JFI_Empty) (queued sys)
  /\ Forall (fun w => m_data w <> ""%string) (workers sys).

(** The event makes the main thread evaluate datasets: a frame accepted in
manual mode, with a template loaded, processed on the main thread. *)
Definition evaluatesInline (env : Env) (ev : Event) (g : Generator) : Prop :=
  exists data,
    ev = frameReceived data
    /\ accepted env data = true
    /\ m_processInSeparateThread g = false
    /\ m_opMode g = kManual
    /\ m_jsonMapData g <> ""%string.

End MoreSystem.

(** The clients of the examples: a publisher with two frames waiting, and a
subscriber on the same topic. Their counter is a [quint16]. *)
Definition quint16_incr (n : N) : N := ((n + 1) mod 2 ^ 16)%N.

Definition examplePublisher : Client :=
  {| m_connection := {| isConnectedToHost := true; m_topic := "telemetry";
                        m_clientMode := ClientPublisher |};
     m_sentMessages := 7%N;
     m_frames := ["10,20"; "11,21"]%string |}.

Definition exampleSubscriber : Client :=
  {| m_connection := {| isConnectedToHost := true; m_topic := "telemetry";
                        m_clientMode := ClientSubscriber |};
     m_sentMessages := 0%N;
     m_frames := [] |}.

(** The example instance with an engine that evaluates the empty program
to [undefined], as QJSEngine does, and a document whose dataset holds a
number (the double 5) under "v". *)
Definition example_evaluate_empty (engine : N) (program : QString) : N * QJSValue :=
  if decide (program = ""%string) then
    (engine, {| isError := false; QJSValue_toString := "undefined" |})
  else example_evaluate engine program.

Definition exampleQtEmptyProgram : QtLib := {|
  QJSEngine := N;
  QJSEngine_new := 0%N;
  evaluate := example_evaluate_empty;
  fromJson := example_fromJson;
  split := example_split
|}.

Definition numberDocument : QJsonDocument :=
  DocObject
    {[ "g"%string :=
         JsonArray
           [JsonObject
              {[ "d"%string :=
                   JsonArray
                     [JsonObject
                        {[ "v"%string := JsonDouble 4617315517961601024 ]}] ]}] ]}.

(** * Properties *)

(** Unfolds the monad and the member assignments of a slot. *)
Ltac unfold_slot :=
  unfold setOperationMode, setProcessFramesInSeparateThread, reset, loadJFI,
    loadJSON, jsonMap_close, jsonMap_setFileName,
    writeSettings, set_frameCount, set_opMode, set_processInSeparateThread,
    set_jsonMap, set_jsonMapData, set_engine, modify, emit, this, terminating,
    mbind, mret, M_bind, M_ret.

(** ** The substitution loops *)

Lemma starts_with_app id post : std.starts_with id (id ++ post) = true.
Proof. induction id as [|c id IH]; simpl; [done|]. by rewrite Ascii.eqb_refl. Qed.

Lemma starts_with_inv id s :
  std.starts_with id s = true -> exists post, s = id ++ post.
Proof.
  revert s. induction id as [|c id IH]; intros s Hs; simpl in *.
  - by exists s.
  - destruct s as [|d s]; [done|].
    destruct (Ascii.eqb c d) eqn:Hcd; [|done].
    apply Ascii.eqb_eq in Hcd as ->.
    destruct (IH _ Hs) as [post ->]. by exists post.
Qed.

Lemma find_from_Some id s p q :
  std.find_from id s p = Some q ->
  exists pre post, s = pre ++ id ++ post /\ q = p + length pre /\
    forall v, replaceAll id v 0 s = pre ++ replaceAll id v 0 (id ++ post).
Proof.
  revert p. induction s as [|c s IH]; intros p Hf.
  - cbn [std.find_from] in Hf.
    destruct (std.starts_with id []) eqn:Hst; [|done].
    injection Hf as <-. apply starts_with_inv in Hst as [post Hpost].
    exists [], post. rewrite <- Hpost. split; [done|]. split; [simpl; lia|done].
  - cbn [std.find_from] in Hf.
    destruct (std.starts_with id (c :: s)) eqn:Hst.
    + injection Hf as <-. apply starts_with_inv in Hst as [post Hpost].
      exists [], post. rewrite <- Hpost. split; [done|]. split; [simpl; lia|done].
    + destruct (IH _ Hf) as (pre & post & Hs & -> & Hr).
      exists (c :: pre), post. split; [by rewrite Hs|]. split; [simpl; lia|].
      intros v. cbn [replaceAll]. rewrite Hst. simpl. by rewrite Hr.
Qed.

Lemma find_from_None id s p v :
  std.find_from id s p = None -> replaceAll id v 0 s = s.
Proof.
  revert p. induction s as [|c s IH]; intros p Hf; [done|].
  cbn [std.find_from] in Hf. cbn [replaceAll].
  destruct (std.starts_with id (c :: s)); [done|].
  f_equal. by eapply IH.
Qed.

Lemma replaceAll_skip id v k s :
  replaceAll id v k s = replaceAll id v 0 (drop k s).
Proof.
  revert k. induction s as [|c s IH]; intros [|k]; try done.
  simpl. apply IH.
Qed.

Lemma replaceAll_occurrence id v post :
  id <> [] -> replaceAll id v 0 (id ++ post) = v ++ replaceAll id v 0 post.
Proof.
  intros Hid. destruct id as [|c id]; [done|].
  change (replaceAll (c :: id) v 0 ((c :: id) ++ post)) with
    (if std.starts_with (c :: id) ((c :: id) ++ post)
     then v ++ replaceAll (c :: id) v (length (c :: id) - 1) (id ++ post)
     else c :: replaceAll (c :: id) v 0 (id ++ post)).
  rewrite starts_with_app. f_equal. rewrite replaceAll_skip.
  simpl. rewrite Nat.sub_0_r. by rewrite drop_app_length.
Qed.

Lemma replaceOccurrences_scan fuel id v done_ rest :
  id <> [] -> length rest < fuel ->
  replaceOccurrences fuel id v (done_ ++ rest) (length done_)
  = Some (done_ ++ replaceAll id v 0 rest).
Proof.
  intros Hid. revert done_ rest.
  induction fuel as [|fuel IH]; intros done_ rest Hfuel; [lia|].
  simpl. unfold std.find.
  rewrite decide_True by (rewrite length_app; lia).
  rewrite drop_app_length.
  destruct (std.find_from id rest (length done_)) as [q|] eqn:Hf.
  - destruct (find_from_Some _ _ _ _ Hf) as (pre & post & -> & -> & Hr).
    rewrite Hr, replaceAll_occurrence by done.
    unfold std.replace.
    replace (take (length done_ + length pre) (done_ ++ pre ++ id ++ post))
      with (done_ ++ pre)
      by (rewrite app_assoc, <- length_app; by rewrite take_app_length).
    replace (drop (length done_ + length pre + length id)
               (done_ ++ pre ++ id ++ post)) with post.
    2:{ rewrite !app_assoc. rewrite <- !length_app. by rewrite drop_app_length. }
    assert (length id <> 0) by (destruct id; simpl; [done|lia]).
    replace ((done_ ++ pre) ++ v ++ post) with ((done_ ++ pre ++ v) ++ post)
      by (by rewrite <- !app_assoc).
    replace (length done_ + length pre + length v) with (length (done_ ++ pre ++ v))
      by (rewrite !length_app; lia).
    rewrite IH.
    + by rewrite <- !app_assoc.
    + rewrite !length_app in Hfuel. lia.
  - by rewrite (find_from_None _ _ _ v Hf).
Qed.

(** The [while] loop started at position 0 with the fuel [addToJsonMap]
    gives it always ends, and computes the scan. *)
Lemma replaceOccurrences_pass i value json :
  replaceOccurrences (S (length json)) (placeholder i) value json 0
  = Some (replaceAll (placeholder i) value 0 json).
Proof.
  apply (replaceOccurrences_scan _ _ _ [] json); [done | lia].
Qed.

Lemma addToJsonMap_substituted list i json :
  addToJsonMap i list json = Some (substituted i list json).
Proof.
  revert i json. induction list as [|value rest IH]; intros i json; [done|].
  cbn [addToJsonMap substituted]. rewrite replaceOccurrences_pass. apply IH.
Qed.

(** ** The evaluation loops *)

Lemma index_loop_mapS_from {A St : Type} (body : nat -> list A * St -> list A * St)
    (f : A -> St -> A * St) :
  (forall j l s x, l !! j = Some x ->
     body j (l, s) = (<[j := (f x s).1]> l, (f x s).2)) ->
  forall rest done_ s,
    foldl (fun st j => body j st) (done_ ++ rest, s)
      (seq (length done_) (length rest))
    = (done_ ++ (mapS f rest s).1, (mapS f rest s).2).
Proof.
  intros Hbody. induction rest as [|x rest IH]; intros done_ s.
  - done.
  - cbn [length seq foldl mapS].
    rewrite (Hbody _ _ _ x) by (by rewrite list_lookup_middle).
    destruct (f x s) as [y s'] eqn:Hf. cbn [fst snd].
    replace (<[length done_ := y]> (done_ ++ x :: rest))
      with ((done_ ++ [y]) ++ rest).
    2:{ rewrite <- app_assoc. simpl.
        rewrite insert_app_r_alt by lia. by rewrite Nat.sub_diag. }
    replace (S (length done_)) with (length (done_ ++ [y]))
      by (rewrite length_app; simpl; lia).
    rewrite IH. destruct (mapS f rest s') as [l'' s'']. cbn [fst snd].
    by rewrite <- app_assoc.
Qed.

Lemma index_loop_mapS {A St : Type} (body : nat -> list A * St -> list A * St)
    (f : A -> St -> A * St) l s :
  (forall j l s x, l !! j = Some x ->
     body j (l, s) = (<[j := (f x s).1]> l, (f x s).2)) ->
  foldl (fun st j => body j st) (l, s) (seq 0 (length l)) = mapS f l s.
Proof.
  intros Hbody.
  pose proof (index_loop_mapS_from body f Hbody l [] s) as Hl.
  cbn [app length] in Hl. rewrite Hl. by destruct (mapS f l s).
Qed.

Lemma mapS_lookup {A St : Type} (f : A -> St -> A * St) l s i x :
  l !! i = Some x ->
  (mapS f l s).1 !! i
  = Some (f x (foldl (fun s x => (f x s).2) s (take i l))).1.
Proof.
  revert s i. induction l as [|y l IH]; intros s i Hi; [done|].
  cbn [mapS]. destruct (f y s) as [y' s'] eqn:Hf.
  destruct i as [|i].
  - injection Hi as ->. cbn. destruct (mapS f l s'). by rewrite Hf.
  - specialize (IH s' i Hi). cbn [take foldl]. rewrite Hf. cbn [snd].
    by destruct (mapS f l s').
Qed.

Lemma mapS_state {A St : Type} (f : A -> St -> A * St) l s :
  (mapS f l s).2 = foldl (fun s x => (f x s).2) s l.
Proof.
  revert s. induction l as [|x l IH]; intros s; [done|].
  cbn [mapS foldl]. destruct (f x s) as [y s'] eqn:Hf.
  specialize (IH s'). destruct (mapS f l s'). simpl in *. by rewrite IH.
Qed.

Section Loops.
Context `{QtLib}.

Lemma evaluateDataset_body j datasets engine d :
  datasets !! j = Some d ->
  evaluateDataset j (datasets, engine)
  = (<[j := (evaluatedDataset d engine).1]> datasets,
     (evaluatedDataset d engine).2).
Proof.
  intros Hj. unfold evaluateDataset, evaluatedDataset, QJsonArray_at.
  rewrite Hj. cbn [default].
  destruct (evaluate engine _) as [engine' jsValue].
  destruct (isError jsValue); cbn [fst snd]; [|done].
  by rewrite list_insert_id.
Qed.

Lemma evaluateGroup_body i groups engine g :
  groups !! i = Some g ->
  evaluateGroup i (groups, engine)
  = (<[i := (evaluatedGroup g engine).1]> groups, (evaluatedGroup g engine).2).
Proof.
  intros Hi. unfold evaluateGroup, evaluatedGroup, QJsonArray_at.
  rewrite Hi. cbn [default].
  rewrite (index_loop_mapS _ evaluatedDataset) by apply evaluateDataset_body.
  by destruct (mapS evaluatedDataset _ engine).
Qed.

Lemma evaluateDatasets_mapS doc engine :
  evaluateDatasets doc engine
  = (DocObject
       (QJsonObject_reinsert (QJsonDocument_object doc) "g"
          (JsonArray
             (mapS evaluatedGroup
                (QJsonValue_toArray
                   (QJsonObject_value (QJsonDocument_object doc) "g"))
                engine).1)),
     (mapS evaluatedGroup
        (QJsonValue_toArray (QJsonObject_value (QJsonDocument_object doc) "g"))
        engine).2).
Proof.
  unfold evaluateDatasets.
  rewrite (index_loop_mapS _ evaluatedGroup) by apply evaluateGroup_body.
  by destruct (mapS evaluatedGroup _ engine).
Qed.

Lemma evaluatedDataset_engine d engine :
  (evaluatedDataset d engine).2 = (evaluate engine (datasetValue d)).1.
Proof. unfold evaluatedDataset, datasetValue. by destruct (evaluate engine _). Qed.

Lemma evaluatedDatasets_engine datasets engine :
  foldl (fun e d => (evaluatedDataset d e).2) engine datasets
  = engineAfter (datasetValue <$> datasets) engine.
Proof.
  unfold engineAfter. revert engine.
  induction datasets as [|d l IH]; intros engine; [done|].
  cbn [foldl fmap list_fmap]. rewrite IH. by rewrite evaluatedDataset_engine.
Qed.

Lemma evaluatedGroup_engine g engine :
  (evaluatedGroup g engine).2 = engineAfter (groupValues g) engine.
Proof.
  unfold evaluatedGroup, groupValues.
  pose proof (mapS_state evaluatedDataset
    (QJsonValue_toArray (QJsonObject_value (QJsonValue_toObject g) "d")) engine) as Hs.
  destruct (mapS evaluatedDataset _ engine) as [ds e']. cbn [snd] in *.
  rewrite Hs. apply evaluatedDatasets_engine.
Qed.

Lemma engineAfter_app values values' engine :
  engineAfter (values ++ values') engine
  = engineAfter values' (engineAfter values engine).
Proof. unfold engineAfter. by rewrite foldl_app. Qed.

Lemma evaluatedGroups_engine groups engine :
  foldl (fun e g => (evaluatedGroup g e).2) engine groups
  = engineAfter (groups ≫= groupValues) engine.
Proof.
  revert engine. induction groups as [|g l IH]; intros engine; [done|].
  cbn [foldl mbind list_bind]. rewrite IH, evaluatedGroup_engine.
  by rewrite engineAfter_app.
Qed.

Lemma evaluateDatasets_engine doc engine :
  (evaluateDatasets doc engine).2 = engineAfter (datasetValues doc) engine.
Proof.
  rewrite evaluateDatasets_mapS. cbn [snd]. rewrite mapS_state.
  apply evaluatedGroups_engine.
Qed.

End Loops.

(** ** The slots of the generator *)

Section Slots.
Context `{QtLib}.

Lemma processFrame_kAutomatic env data frame time g :
  m_opMode g = kAutomatic ->
  processFrame env data frame time g
  = Some (tt, g,
          match fromJson data with
          | Some document => [jsonChanged (JFI_CreateNew frame time document)]
          | None => []
          end).
Proof.
  intros Hmode. unfold processFrame. unfold_slot. rewrite Hmode.
  by destruct (fromJson data).
Qed.

Lemma processFrame_noMap env data frame time g :
  m_opMode g = kManual -> m_jsonMapData g = ""%string ->
  processFrame env data frame time g = Some (tt, g, []).
Proof.
  intros Hmode Hmap. unfold processFrame. unfold_slot. rewrite Hmode.
  by rewrite decide_True.
Qed.

Lemma processFrame_kManual env data frame time g :
  m_opMode g = kManual -> m_jsonMapData g <> ""%string ->
  let json := substituted 0 (frameFields env data) (toStdString (m_jsonMapData g)) in
  let parsed := fromJson (toUtf8 (fromStdString json)) in
  let result := evaluateDatasets (default DocNull parsed) (m_engine g) in
  processFrame env data frame time g
  = Some (tt, with_engine result.2 g,
          match parsed with
          | Some _ => [jsonChanged (JFI_CreateNew frame time result.1)]
          | None => []
          end).
Proof.
  intros Hmode Hmap. unfold processFrame. unfold_slot. rewrite Hmode.
  rewrite decide_False by done. rewrite addToJsonMap_substituted.
  cbn zeta. destruct (evaluateDatasets _ (m_engine g)) as [document engine].
  cbn [fst snd]. by destruct (fromJson _).
Qed.

Lemma processFrame_total env data frame time g :
  exists g' out, processFrame env data frame time g = Some (tt, g', out)
    /\ m_frameCount g' = m_frameCount g
    /\ Forall (fun info => JFI_frameNumber info = frame /\ info <> JFI_Empty)
         (envelopes out)
    /\ startedWorkers out = [].
Proof.
  destruct (m_opMode g) eqn:Hmode.
  - destruct (decide (m_jsonMapData g = ""%string)) as [Hmap|Hmap].
    + rewrite processFrame_noMap by done. exists g, []. by repeat constructor.
    + rewrite processFrame_kManual by done. eexists _, _. split; [done|].
      split; [done|]. destruct (fromJson _); cbn; by repeat constructor.
  - rewrite processFrame_kAutomatic by done. exists g. eexists. split; [done|].
    split; [done|]. destruct (fromJson _); cbn; by repeat constructor.
Qed.

End Slots.

Section SlotResults.
Context `{QtLib}.

Lemma accepted_true env data :
  accepted env data = true <->
  CSV_Player_isOpen env = false /\ data <> ""%string.
Proof.
  unfold accepted. rewrite andb_true_iff, !negb_true_iff.
  by rewrite bool_decide_eq_false.
Qed.

Lemma readData_replay env data g :
  CSV_Player_isOpen env = true -> readData env data g = Some (tt, g, []).
Proof. intros Hcsv. unfold readData. by rewrite Hcsv. Qed.

Lemma readData_rejected env data g :
  accepted env data = false -> readData env data g = Some (tt, g, []).
Proof.
  unfold accepted, readData. intros Hacc.
  destruct (CSV_Player_isOpen env); [done|].
  destruct (decide (data = ""%string)) as [->|Hne]; [done|].
  by rewrite bool_decide_eq_false_2 in Hacc.
Qed.

Lemma readData_threaded env data g :
  accepted env data = true -> m_processInSeparateThread g = true ->
  readData env data g
  = Some (tt, with_frameCount (quint64_incr (m_frameCount g)) g,
          [threadStart {| m_time := currentDateTime env; m_data := data;
                          m_frame := quint64_incr (m_frameCount g) |}]).
Proof.
  intros [Hcsv Hdata]%accepted_true Hthr. unfold readData. rewrite Hcsv.
  rewrite decide_False by done. unfold_slot. cbn. by rewrite Hthr.
Qed.

Lemma readData_inline env data g :
  accepted env data = true -> m_processInSeparateThread g = false ->
  readData env data g
  = processFrame env data (quint64_incr (m_frameCount g)) (currentDateTime env)
      (with_frameCount (quint64_incr (m_frameCount g)) g).
Proof.
  intros [Hcsv Hdata]%accepted_true Hthr. unfold readData. rewrite Hcsv.
  rewrite decide_False by done. unfold_slot. cbn. rewrite Hthr.
  by destruct (processFrame _ _ _ _ _) as [[[[] ?] ?]|].
Qed.

Lemma sourceActive_test env :
  CSV_Player_isOpen env || IO_Manager_connected env
    || isSubscribed (MQTT_Client_instance env) = true
  <-> sourceActive env.
Proof.
  unfold sourceActive, isSubscribed.
  rewrite !orb_true_iff, !andb_true_iff, negb_true_iff, bool_decide_eq_false.
  destruct (m_clientMode (MQTT_Client_instance env)); intuition congruence.
Qed.

Lemma loadJFI_active env info g :
  sourceActive env -> loadJFI env info g = Some (tt, g, [jsonChanged info]).
Proof.
  intros Hact%sourceActive_test. unfold loadJFI. by rewrite Hact.
Qed.

Lemma loadJFI_inactive env info g :
  ~ sourceActive env ->
  loadJFI env info g = Some (tt, with_frameCount 0 g, [jsonChanged JFI_Empty]).
Proof.
  intros Hact. unfold loadJFI.
  destruct (_ || _ || _) eqn:Htest; [by apply sourceActive_test in Htest|].
  done.
Qed.

Lemma loadJSON_active env json g :
  sourceActive env ->
  loadJSON env json g
  = Some (tt, with_frameCount (quint64_incr (m_frameCount g)) g,
          [jsonChanged (JFI_CreateNew (quint64_incr (m_frameCount g))
                          (currentDateTime env) json)]).
Proof.
  intros Hact. unfold loadJSON. unfold mbind, M_bind, this, set_frameCount, modify.
  by rewrite loadJFI_active.
Qed.

Lemma loadJSON_inactive env json g :
  ~ sourceActive env ->
  loadJSON env json g
  = Some (tt, with_frameCount 0 g, [jsonChanged JFI_Empty]).
Proof.
  intros Hact. unfold loadJSON. unfold mbind, M_bind, this, set_frameCount, modify.
  by rewrite loadJFI_inactive.
Qed.

(** [loadJsonMap], case by case. *)
Lemma loadJsonMap_result env path g :
  path <> ""%string ->
  exists g' out, loadJsonMap env path g = Some (tt, g', out)
    /\ m_frameCount g' = m_frameCount g
    /\ m_opMode g' = m_opMode g
    /\ m_processInSeparateThread g' = m_processInSeparateThread g
    /\ m_engine g' = m_engine g
    /\ envelopes out = [] /\ startedWorkers out = []
    /\ fileName (m_jsonMap g') = path
    /\ match QFile_contents env path with
       | None =>
           isOpen (m_jsonMap g') = false /\ m_jsonMapData g' = ""%string
           /\ m_settings g' = ""%string
       | Some data =>
           match fromJson data with
           | None =>
               isOpen (m_jsonMap g') = false
               /\ m_jsonMapData g'
                  = (if isOpen (m_jsonMap g) then "" else m_jsonMapData g)%string
               /\ m_settings g' = ""%string
           | Some _ =>
               isOpen (m_jsonMap g') = true
               /\ m_jsonMapData g' = fromUtf8 data
               /\ m_settings g' = path
           end
       end.
Proof.
  intros Hpath. unfold loadJsonMap. rewrite decide_False by done.
  unfold_slot.
  destruct (isOpen (m_jsonMap g)) eqn:Hopen;
    destruct (QFile_contents env path) as [data|];
    try destruct (fromJson data);
    cbn; rewrite ?Hopen; eexists _, _; (split; [reflexivity|]); cbn;
    rewrite ?Hopen; done.
Qed.

End SlotResults.

(** ** The application, event by event *)

Section Application.
Context `{QtLib}.

Lemma JSONWorker_process_total env g w :
  exists out, JSONWorker_process env g w = Some out
    /\ Forall (fun info => JFI_frameNumber info = m_frame w /\ info <> JFI_Empty)
         (readyFrames out)
    /\ envelopes out = [] /\ startedWorkers out = [].
Proof.
  unfold JSONWorker_process. destruct (m_opMode g).
  - destruct (decide (m_jsonMapData g = ""%string)).
    + exists []. by repeat constructor.
    + rewrite addToJsonMap_substituted. cbn [mbind option_bind].
      destruct (evaluateDatasets _ _) as [document engine].
      destruct (fromJson _); eexists; (split; [done|]); cbn; by repeat constructor.
  - destruct (fromJson _); eexists; (split; [done|]); cbn; by repeat constructor.
Qed.

Lemma runSlot_result slot sys queued' g' out :
  slot (generator sys) = Some (tt, g', out) ->
  runSlot slot sys queued'
  = Some ({| generator := g'; workers := workers sys ++ startedWorkers out;
             queued := queued' |}, out).
Proof. intros Hslot. unfold runSlot. by rewrite Hslot. Qed.

Lemma dispatch_accepted env data sys :
  accepted env data = true ->
  exists sys' out, dispatch env (frameReceived data) sys = Some (sys', out)
    /\ m_frameCount (generator sys') = quint64_incr (m_frameCount (generator sys))
    /\ Forall (fun info => JFI_frameNumber info = m_frameCount (generator sys')
                           /\ info <> JFI_Empty) (envelopes out)
    /\ Forall (fun w => m_frame w = m_frameCount (generator sys')
                        /\ m_data w = data /\ m_time w = currentDateTime env)
         (startedWorkers out).
Proof.
  intros Hacc. cbn [dispatch].
  destruct (m_processInSeparateThread (generator sys)) eqn:Hthr.
  - erewrite runSlot_result by (by apply readData_threaded).
    eexists _, _. split; [done|]. cbn. by repeat constructor.
  - pose proof (processFrame_total env data
      (quint64_incr (m_frameCount (generator sys))) (currentDateTime env)
      (with_frameCount (quint64_incr (m_frameCount (generator sys)))
         (generator sys))) as (g' & out & Hp & Hcount & Henv & Hw).
    erewrite runSlot_result by (rewrite readData_inline by done; apply Hp).
    eexists _, _. split; [done|]. cbn [generator]. rewrite Hcount. cbn.
    split; [done|]. split; [done|]. rewrite Hw. constructor.
Qed.

(** What one event does to the frame counter. *)
Lemma dispatch_counter env ev sys :
  exists sys' out, dispatch env ev sys = Some (sys', out)
    /\ ((m_frameCount (generator sys') = 0%N /\ jsonChanged JFI_Empty ∈ out)
        \/ m_frameCount (generator sys')
           = (if takesNoFrame (env, ev) then m_frameCount (generator sys)
              else quint64_incr (m_frameCount (generator sys)))).
Proof.
  destruct ev as [data| | |path|mode|threaded|json|k|]; cbn [takesNoFrame snd fst].
  - destruct (accepted env data) eqn:Hacc; cbn [negb].
    + destruct (dispatch_accepted env data sys Hacc)
        as (sys' & out & Hd & Hcount & _).
      exists sys', out. split; [done|]. by right.
    + cbn [dispatch]. erewrite runSlot_result by (by apply readData_rejected).
      eexists _, _. split; [done|]. by right.
  - eexists _, _. split; [done|]. left. split; [done|]. by apply list_elem_of_singleton.
  - eexists _, _. split; [done|]. left. split; [done|]. by apply list_elem_of_singleton.
  - cbn [dispatch]. destruct (decide (path = ""%string)) as [->|Hpath].
    + eexists _, _. split; [done|]. by right.
    + destruct (loadJsonMap_result env path (generator sys) Hpath)
        as (g' & out & Hl & Hcount & _).
      erewrite runSlot_result by done. eexists _, _. split; [done|]. by right.
  - eexists _, _. split; [done|]. by right.
  - eexists _, _. split; [done|]. by right.
  - cbn [dispatch]. destruct (sourceActive_test env) as [Ht1 Ht2].
    destruct (CSV_Player_isOpen env || IO_Manager_connected env
              || isSubscribed (MQTT_Client_instance env)) eqn:Htest.
    + erewrite runSlot_result by (apply loadJSON_active; by apply Ht1).
      eexists _, _. split; [done|]. by right.
    + erewrite runSlot_result
        by (apply loadJSON_inactive; intros Hact; apply Ht2 in Hact; congruence).
      eexists _, _. split; [done|]. left. split; [done|].
      by apply list_elem_of_singleton.
  - cbn [dispatch]. destruct (workers sys !! k) as [w|].
    + destruct (JSONWorker_process_total env (generator sys) w) as (out & Hp & _).
      rewrite Hp. cbn [mbind option_bind]. eexists _, _. split; [done|]. by right.
    + eexists _, _. split; [done|]. by right.
  - cbn [dispatch]. destruct (queued sys) as [|info rest].
    + eexists _, _. split; [done|]. by right.
    + destruct (sourceActive_test env) as [Ht1 Ht2].
      destruct (CSV_Player_isOpen env || IO_Manager_connected env
                || isSubscribed (MQTT_Client_instance env)) eqn:Htest.
      * erewrite runSlot_result by (apply loadJFI_active; by apply Ht1).
        eexists _, _. split; [done|]. by right.
      * erewrite runSlot_result
          by (apply loadJFI_inactive; intros Hact; apply Ht2 in Hact; congruence).
        eexists _, _. split; [done|]. left. split; [done|].
        by apply list_elem_of_singleton.
Qed.

Lemma run_cons env ev rest sys sys' out sys'' out' :
  dispatch env ev sys = Some (sys', out) ->
  run rest sys' = Some (sys'', out') ->
  run ((env, ev) :: rest) sys = Some (sys'', out ++ out').
Proof. intros Hd Hr. cbn [run]. rewrite Hd. cbn. by rewrite Hr. Qed.

Lemma framesTaken_cons e rest :
  framesTaken (e :: rest)
  = (if takesNoFrame e then 0 else 1) + framesTaken rest.
Proof.
  unfold framesTaken. rewrite filter_cons.
  destruct (takesNoFrame e); [by rewrite decide_False|by rewrite decide_True].
Qed.

(** A run ends, and unless [reset] ran in it the counter was incremented
    once for each frame taken in. *)
Lemma run_counter events sys :
  exists sys' out, run events sys = Some (sys', out)
    /\ (jsonChanged JFI_Empty ∉ out ->
        m_frameCount (generator sys')
        = Nat.iter (framesTaken events) quint64_incr (m_frameCount (generator sys))).
Proof.
  revert sys. induction events as [|[env ev] rest IH]; intros sys.
  - by exists sys, [].
  - destruct (dispatch_counter env ev sys) as (sys1 & out1 & Hd & Hc).
    destruct (IH sys1) as (sys2 & out2 & Hr & Hc2).
    exists sys2, (out1 ++ out2). split; [by eapply run_cons|].
    intros Hno. rewrite not_elem_of_app in Hno. destruct Hno as [Hno1 Hno2].
    destruct Hc as [[_ Hin]|Hc]; [done|].
    rewrite Hc2, Hc by done. rewrite framesTaken_cons.
    destruct (takesNoFrame (env, ev)); [done|].
    cbn [Nat.add]. by rewrite Nat.iter_succ_r.
Qed.

Lemma quint64_incr_iter k c :
  (c + N.of_nat k < quint64_modulus)%N ->
  Nat.iter k quint64_incr c = (c + N.of_nat k)%N.
Proof.
  induction k as [|k IH]; intros Hlt.
  - cbn. lia.
  - rewrite Nat.iter_succ, IH by lia. unfold quint64_incr.
    rewrite N.mod_small by lia. lia.
Qed.

(** Events that take no frame in leave a counter of 0 at 0. *)
Lemma run_keeps_zero events sys :
  Forall (fun e => takesNoFrame e = true) events ->
  m_frameCount (generator sys) = 0%N ->
  exists sys' out, run events sys = Some (sys', out)
    /\ m_frameCount (generator sys') = 0%N.
Proof.
  revert sys. induction events as [|[env ev] rest IH]; intros sys Hall Hzero.
  - by exists sys, [].
  - apply Forall_cons in Hall as [He Hall].
    destruct (dispatch_counter env ev sys) as (sys1 & out1 & Hd & Hc).
    assert (m_frameCount (generator sys1) = 0%N) as Hzero1.
    { destruct Hc as [[Hc _]|Hc]; [done|]. rewrite Hc, He. done. }
    destruct (IH sys1 Hall Hzero1) as (sys2 & out2 & Hr & Hz).
    exists sys2, (out1 ++ out2). split; [by eapply run_cons|done].
Qed.

End Application.

(** ** C1: order of the passes, and what a pass does not read again *)

(** C1, as the code has it. The pass of placeholder [i + 1] on a text whose
    first occurrence of the marker is after [pre] copies [pre], writes the
    value of the field verbatim in place of the marker, and goes on with
    the same pass on the text after the marker only: the value written is
    not read again by this pass. The passes of the later placeholders then
    run on the whole text, the written value included. *)
Theorem pass_writes_value_verbatim i value rest pre post :
  std.find (pre ++ placeholder i ++ post) (placeholder i) 0 = Some (length pre) ->
  exists post',
    replaceOccurrences (S (length post)) (placeholder i) value post 0 = Some post'
    /\ addToJsonMap i (value :: rest) (pre ++ placeholder i ++ post)
       = addToJsonMap (S i) rest (pre ++ value ++ post').
Proof.
  intros Hfind. exists (replaceAll (placeholder i) value 0 post).
  split; [apply replaceOccurrences_pass|].
  cbn [addToJsonMap]. rewrite replaceOccurrences_pass. cbn [mbind option_bind].
  f_equal. unfold std.find in Hfind.
  rewrite decide_True in Hfind by lia. rewrite drop_0 in Hfind.
  destruct (find_from_Some _ _ _ _ Hfind) as (pre' & post'' & Heq & Hlen & Hr).
  simpl in Hlen. apply app_inj_1 in Heq as [-> Heq]; [|done].
  apply app_inv_head in Heq as <-.
  rewrite Hr. by rewrite replaceAll_occurrence.
Qed.

Lemma pass_writes_value_verbatim_witness :
  exists post',
    replaceOccurrences 3 (placeholder 0) (toStdString "a%1") (toStdString "-y") 0
    = Some post'
    /\ addToJsonMap 0 [toStdString "a%1"; toStdString "b"] (toStdString "x=%1-y")
       = addToJsonMap 1 [toStdString "b"] (toStdString "x=" ++ toStdString "a%1" ++ post').
Proof.
  apply (pass_writes_value_verbatim 0 (toStdString "a%1") [toStdString "b"]
           (toStdString "x=") (toStdString "-y")).
  reflexivity.
Defined.

(** C1, as stated, fails: the value of field 1 is the text [%2]; pass 1
    writes it in place of [%1], and pass 2 reads it as the marker of field 2
    and replaces it by the value of field 2. *)
Lemma later_pass_reads_written_value :
  addToJsonMap 0 [toStdString "%2"; toStdString "X"] (toStdString "%1")
  = Some (toStdString "X")
  /\ toStdString "X" <> toStdString "%2".
Proof. split; [reflexivity | discriminate]. Qed.

(** ** C2: a marker that is the prefix of another *)

(** C2 at a template of ten fields: the occurrence of [%10] is not replaced
    by the value of field 10 ([j]); the pass of [%1] takes its first two
    characters and leaves [a0]. *)
Theorem prefix_marker_taken_by_shorter_one :
  addToJsonMap 0
    (toStdString <$> ["a"; "b"; "c"; "d"; "e"; "f"; "g"; "h"; "i"; "j"]%string)
    (toStdString "%10")
  = Some (toStdString "a0")
  /\ toStdString "a0" <> toStdString "j".
Proof. split; [reflexivity | discriminate]. Qed.

(** ** C9: frames that arrive while the replay player is open *)

Section Replay.
Context `{QtLib}.

(** C9. While [CSV::Player] reports itself open, [readData] returns at
    once: the generator is as before (the frame counter in particular),
    nothing is emitted, and no worker is started. *)
Theorem replay_active_drops_frame env data sys :
  CSV_Player_isOpen env = true ->
  readData env data (generator sys) = Some (tt, generator sys, [])
  /\ dispatch env (frameReceived data) sys = Some (sys, []).
Proof.
  intros Hcsv. split; [by apply readData_replay|].
  cbn [dispatch]. erewrite runSlot_result by (by apply readData_replay).
  destruct sys as [g ws q]. cbn. by rewrite app_nil_r.
Qed.

End Replay.

Lemma replay_active_drops_frame_witness :
  let sys := exampleSystem (exampleGenerator 5 kManual true (templateText "%1 * 2")) in
  @readData exampleQt replayOpen "21" (generator sys) = Some (tt, generator sys, [])
  /\ @dispatch exampleQt replayOpen (frameReceived "21") sys = Some (sys, []).
Proof.
  apply (@replay_active_drops_frame exampleQt replayOpen "21"
           (exampleSystem (exampleGenerator 5 kManual true (templateText "%1 * 2")))).
  reflexivity.
Defined.

(** ** C8: the reset on a change of source *)

Section SourceChange.
Context `{QtLib}.

(** C8. [deviceChanged] and [openChanged] are connected to [reset]: in
    every state the counter becomes 0 and the empty envelope (number 0, no
    document) is what is emitted. Whatever happens next short of taking a
    frame in (changes of configuration, template loads, rejected frames,
    workers of earlier frames running and delivering their envelopes,
    further resets), the next frame [readData] accepts gets number 1:
    the counter is 1 after it, and the envelope emitted for it or the
    worker started for it carries 1. *)
Theorem reset_restarts_numbering env ev sys :
  ev = deviceChanged \/ ev = openChanged ->
  exists sys0,
    dispatch env ev sys = Some (sys0, [jsonChanged JFI_Empty])
    /\ m_frameCount (generator sys0) = 0%N
    /\ JFI_frameNumber JFI_Empty = 0%N
    /\ JFI_jsonDocument JFI_Empty = None
    /\ forall events env' data,
         Forall (fun e => takesNoFrame e = true) events ->
         accepted env' data = true ->
         exists sys1 out1 sys2 out2,
           run events sys0 = Some (sys1, out1)
           /\ dispatch env' (frameReceived data) sys1 = Some (sys2, out2)
           /\ m_frameCount (generator sys2) = 1%N
           /\ Forall (fun info => JFI_frameNumber info = 1%N) (envelopes out2)
           /\ Forall (fun w => m_frame w = 1%N) (startedWorkers out2).
Proof.
  intros Hev.
  set (sys0 := {| generator := with_frameCount 0 (generator sys);
                  workers := workers sys ++ []; queued := queued sys |}).
  exists sys0.
  split; [by destruct Hev as [-> | ->]|].
  do 3 (split; [done|]).
  intros events env' data Hall Hacc.
  destruct (run_keeps_zero events sys0 Hall eq_refl)
    as (sys1 & out1 & Hrun & Hzero).
  destruct (dispatch_accepted env' data sys1 Hacc)
    as (sys2 & out2 & Hd & Hcount & Henv & Hw).
  rewrite Hzero in Hcount. change (quint64_incr 0) with 1%N in Hcount.
  exists sys1, out1, sys2, out2. do 3 (split; [done|]). rewrite Hcount in *.
  split; (eapply Forall_impl; [eassumption|]); cbn; intros x Hx; apply Hx.
Qed.

End SourceChange.

Lemma reset_restarts_numbering_witness :
  exists sys0,
    @dispatch exampleQt deviceConnected deviceChanged
      (exampleSystem (exampleGenerator 7 kAutomatic false "")) 
    = Some (sys0, [jsonChanged JFI_Empty])
    /\ exists sys1 out1 sys2 out2,
         run [(deviceConnected, call_setOperationMode kManual);
              (replayOpen, frameReceived "21");
              (deviceConnected, jsonReadyReceived)] sys0
         = Some (sys1, out1)
         /\ dispatch deviceConnected (frameReceived "{}") sys1 = Some (sys2, out2)
         /\ m_frameCount (generator sys2) = 1%N.
Proof.
  destruct (@reset_restarts_numbering exampleQt deviceConnected deviceChanged
              (exampleSystem (exampleGenerator 7 kAutomatic false ""))
              (or_introl eq_refl))
    as (sys0 & Hreset & _ & _ & _ & Hnext).
  exists sys0. split; [exact Hreset|].
  destruct (Hnext [(deviceConnected, call_setOperationMode kManual);
                   (replayOpen, frameReceived "21");
                   (deviceConnected, jsonReadyReceived)]
              deviceConnected "{}"%string)
    as (sys1 & out1 & sys2 & out2 & Hrun & Hframe & Hcount & _).
  - repeat constructor.
  - reflexivity.
  - exists sys1, out1, sys2, out2. split; [exact Hrun|]. split; [exact Hframe|].
    exact Hcount.
Defined.

(** ** C10: delivery through [loadJFI] *)

Section Delivery.
Context `{QtLib}.

(** C10, as the code has it. The test is made by [loadJFI], which receives
    the [jsonReady] of a worker and is called by [loadJSON]. With a source
    active (the replay player open, the device connected, or the MQTT client
    connected to a host with a topic set and in subscriber mode) the
    envelope is emitted and the generator is unchanged; with none, the
    envelope is dropped, the counter is set to 0 and the empty envelope is
    emitted. *)
Theorem loadJFI_forwards_only_with_source env info rest json sys :
  queued sys = info :: rest ->
  (sourceActive env ->
     loadJFI env info (generator sys)
     = Some (tt, generator sys, [jsonChanged info])
     /\ dispatch env jsonReadyReceived sys
        = Some ({| generator := generator sys; workers := workers sys;
                   queued := rest |}, [jsonChanged info])
     /\ dispatch env (call_loadJSON json) sys
        = Some ({| generator :=
                     with_frameCount (quint64_incr (m_frameCount (generator sys)))
                       (generator sys);
                   workers := workers sys; queued := queued sys |},
                [jsonChanged
                   (JFI_CreateNew (quint64_incr (m_frameCount (generator sys)))
                      (currentDateTime env) json)]))
  /\ (~ sourceActive env ->
      loadJFI env info (generator sys)
      = Some (tt, with_frameCount 0 (generator sys), [jsonChanged JFI_Empty])
      /\ dispatch env jsonReadyReceived sys
         = Some ({| generator := with_frameCount 0 (generator sys);
                    workers := workers sys; queued := rest |},
                 [jsonChanged JFI_Empty])
      /\ dispatch env (call_loadJSON json) sys
         = Some ({| generator := with_frameCount 0 (generator sys);
                    workers := workers sys; queued := queued sys |},
                 [jsonChanged JFI_Empty])).
Proof.
  intros Hq. split; intros Hact.
  - split; [by apply loadJFI_active|]. cbn [dispatch]. rewrite Hq.
    erewrite !runSlot_result
      by first [by apply loadJFI_active | by apply loadJSON_active].
    cbn. by rewrite app_nil_r.
  - split; [by apply loadJFI_inactive|]. cbn [dispatch]. rewrite Hq.
    erewrite !runSlot_result
      by first [by apply loadJFI_inactive | by apply loadJSON_inactive].
    cbn. by rewrite app_nil_r.
Qed.

End Delivery.

Lemma loadJFI_forwards_only_with_source_witness :
  let g := exampleGenerator 3 kAutomatic true "" in
  let info := JFI_CreateNew 3 1000%N (DocObject ∅) in
  @loadJFI exampleQt nothingActive info g
  = Some (tt, with_frameCount 0 g, [jsonChanged JFI_Empty])
  /\ @loadJFI exampleQt deviceConnected info g = Some (tt, g, [jsonChanged info]).
Proof.
  pose (g := exampleGenerator 3 kAutomatic true "").
  pose (info := JFI_CreateNew 3 1000%N (DocObject ∅)).
  pose (sys := @Build_System exampleQt g [] [info]).
  split.
  - refine (proj1 (proj2 (@loadJFI_forwards_only_with_source exampleQt
             nothingActive info [] DocNull sys eq_refl) _)).
    unfold sourceActive. cbn. intros [?|[?|(? & ? & ?)]]; discriminate.
  - refine (proj1 (proj1 (@loadJFI_forwards_only_with_source exampleQt
             deviceConnected info [] DocNull sys eq_refl) _)).
    right. left. reflexivity.
Defined.

(** C10, as stated, fails for a frame processed on the main thread:
    [processFrame] emits [jsonChanged] itself. Here no source is active, the
    frame [{}] arrives in automatic mode, and its envelope is emitted; the
    counter stays at 1. *)
Lemma inline_envelope_is_not_tested :
  ~ sourceActive nothingActive
  /\ @readData exampleQt nothingActive "{}" (exampleGenerator 0 kAutomatic false "")
     = Some (tt, exampleGenerator 1 kAutomatic false "",
             [jsonChanged (JFI_CreateNew 1 1000%N (DocObject ∅))]).
Proof.
  split; [|reflexivity].
  unfold sourceActive. cbn. intros [?|[?|(? & ? & ?)]]; discriminate.
Qed.

(** ** C7: the frame counter *)

Section Counter.
Context `{QtLib}.

(** A frame accepted on the main thread that yields no document is counted
    and nothing is emitted for it. *)
Lemma readData_counts_frame_without_document env data g :
  accepted env data = true ->
  m_processInSeparateThread g = false ->
  yieldsNoDocument env data g ->
  exists g',
    readData env data g = Some (tt, g', [])
    /\ m_frameCount g' = quint64_incr (m_frameCount g).
Proof.
  intros Hacc Hthr Hno. rewrite readData_inline by done.
  unfold yieldsNoDocument in Hno.
  destruct (m_opMode g) eqn:Hmode.
  - destruct (decide (m_jsonMapData g = ""%string)) as [Hmap|Hmap].
    + rewrite processFrame_noMap by done. by eexists.
    + destruct Hno as [Hno|(json & Hjson & Hparse)]; [done|].
      rewrite addToJsonMap_substituted in Hjson. injection Hjson as <-.
      rewrite processFrame_kManual by done. cbn [with_frameCount m_jsonMapData].
      rewrite Hparse. by eexists.
  - rewrite processFrame_kAutomatic by done. rewrite Hno. by eexists.
Qed.

(** C7, as the code has it. A frame that [readData] accepts increments the
    counter once, as a [quint64] (so by one unless it was 2^64 - 1); the
    new value is the number of the envelope emitted for the frame or of the
    worker started for it, and no [reset] runs. On the main thread the
    frame is counted also when it yields no document, and then nothing is
    emitted for it. Every run ends; unless [reset] ran in it (the empty
    envelope was emitted), the counter has been incremented exactly once
    for each frame taken in, so it has advanced by their number as long as
    that stays below 2^64. *)
Theorem frame_counter_counts_frames events sys env data :
  (accepted env data = true ->
   exists sys' out,
     dispatch env (frameReceived data) sys = Some (sys', out)
     /\ m_frameCount (generator sys') = quint64_incr (m_frameCount (generator sys))
     /\ ((m_frameCount (generator sys) < quint64_modulus - 1)%N ->
         m_frameCount (generator sys') = (m_frameCount (generator sys) + 1)%N)
     /\ Forall (fun info => JFI_frameNumber info = m_frameCount (generator sys')
                            /\ info <> JFI_Empty) (envelopes out)
     /\ Forall (fun w => m_frame w = m_frameCount (generator sys'))
          (startedWorkers out))
  /\ (accepted env data = true ->
      m_processInSeparateThread (generator sys) = false ->
      yieldsNoDocument env data (generator sys) ->
      exists g',
        readData env data (generator sys) = Some (tt, g', [])
        /\ m_frameCount g' = quint64_incr (m_frameCount (generator sys)))
  /\ (exists sys' out,
        run events sys = Some (sys', out)
        /\ (jsonChanged JFI_Empty ∉ out ->
            m_frameCount (generator sys')
            = Nat.iter (framesTaken events) quint64_incr
                (m_frameCount (generator sys))
            /\ ((m_frameCount (generator sys) + N.of_nat (framesTaken events)
                 < quint64_modulus)%N ->
                m_frameCount (generator sys')
                = (m_frameCount (generator sys)
                   + N.of_nat (framesTaken events))%N))).
Proof.
  split; [|split; [apply readData_counts_frame_without_document|]].
  - intros Hacc.
    destruct (dispatch_accepted env data sys Hacc)
      as (sys' & out & Hd & Hcount & Henv & Hw).
    exists sys', out. do 2 (split; [done|]). split; [|split; [done|]].
    + intros Hlt. rewrite Hcount. unfold quint64_incr.
      rewrite N.mod_small; unfold quint64_modulus in *; lia.
    + eapply Forall_impl; [exact Hw|]. cbn. intros w Hx. apply Hx.
  - destruct (run_counter events sys) as (sys' & out & Hrun & Hcount).
    exists sys', out. split; [done|]. intros Hno. split; [by apply Hcount|].
    intros Hlt. rewrite Hcount by done. by apply quint64_incr_iter.
Qed.

End Counter.

(** In the example instance every value below 2^64 of the counter is
    reached: by that many frames that do not parse, in automatic mode on
    the main thread. *)
Lemma example_counter_reachable n :
  (n < quint64_modulus)%N ->
  @Reachable exampleQt (exampleSystem (exampleGenerator n kAutomatic false "")).
Proof.
  induction n as [|n IH] using N.peano_ind; intros Hlt.
  - by apply (@Reachable_start exampleQt deviceConnected ""%string _ []).
  - apply (@Reachable_dispatch exampleQt deviceConnected (frameReceived "x")
             (exampleSystem (exampleGenerator n kAutomatic false "")) _ []).
    + apply IH. lia.
    + replace (N.succ n) with (quint64_incr n)
        by (unfold quint64_incr; rewrite N.mod_small by lia; lia).
      reflexivity.
Qed.

Lemma frame_counter_counts_frames_witness :
  (exists sys' out,
     @dispatch exampleQt deviceConnected (frameReceived "21")
       (exampleSystem (exampleGenerator 4 kManual false ""))
     = Some (sys', out)
     /\ m_frameCount (generator sys') = 5%N)
  /\ (exists g',
        @readData exampleQt deviceConnected "21" (exampleGenerator 4 kManual false "")
        = Some (tt, g', [])
        /\ m_frameCount g' = 5%N).
Proof.
  destruct (@frame_counter_counts_frames exampleQt []
              (exampleSystem (exampleGenerator 4 kManual false ""))
              deviceConnected "21"%string)
    as (Hframe & Hnone & _).
  split.
  - destruct (Hframe eq_refl) as (sys' & out & Hd & Hcount & _).
    exists sys', out. split; [exact Hd | exact Hcount].
  - apply Hnone; [reflexivity | reflexivity | left; reflexivity].
Defined.

(** C7, as stated, fails where the counter is at its last value: the state
    is reached from the start of the application, the frame is accepted, no
    [reset] runs, and the counter goes from 2^64 - 1 to 0. *)
Lemma frame_counter_wraps :
  exists sys sys' : @System exampleQt,
    Reachable sys
    /\ m_frameCount (generator sys) = 18446744073709551615%N
    /\ accepted deviceConnected "x" = true
    /\ dispatch deviceConnected (frameReceived "x") sys = Some (sys', [])
    /\ m_frameCount (generator sys') = 0%N.
Proof.
  exists (exampleSystem (exampleGenerator 18446744073709551615 kAutomatic false "")).
  eexists. split; [by apply example_counter_reachable|].
  split; [reflexivity|]. split; [reflexivity|]. split; reflexivity.
Qed.

(** ** C3: what a worker reads, and when *)

Section Worker.
Context `{QtLib}.

(** What [process] emits is a function of the three members of the worker
    and of the operation mode, the template text and the separator read
    while it runs. *)
Lemma JSONWorker_process_reads env1 env2 g1 g2 w :
  m_opMode g1 = m_opMode g2 ->
  m_jsonMapData g1 = m_jsonMapData g2 ->
  IO_Manager_separatorSequence env1 = IO_Manager_separatorSequence env2 ->
  JSONWorker_process env1 g1 w = JSONWorker_process env2 g2 w.
Proof.
  intros Hmode Hmap Hsep. unfold JSONWorker_process, frameFields.
  by rewrite Hmode, Hmap, Hsep.
Qed.

(** C3, as the code has it. A frame accepted in threaded mode starts one
    worker, which holds the frame bytes, the frame number and the time of
    the dispatch. The operation mode and the template are not stored in it:
    [process] reads them from the generator when it runs. So whatever the
    generator was at the dispatch, two runs of the worker emit the same if
    the generators they find agree on the operation mode and the template
    text (and the separator is the same). *)
Theorem worker_reads_generator_when_it_runs env data sys :
  accepted env data = true ->
  m_processInSeparateThread (generator sys) = true ->
  exists sys' out w,
    dispatch env (frameReceived data) sys = Some (sys', out)
    /\ startedWorkers out = [w]
    /\ workers sys' = workers sys ++ [w]
    /\ m_data w = data
    /\ m_frame w = quint64_incr (m_frameCount (generator sys))
    /\ m_time w = currentDateTime env
    /\ forall env1 env2 g1 g2,
         m_opMode g1 = m_opMode g2 ->
         m_jsonMapData g1 = m_jsonMapData g2 ->
         IO_Manager_separatorSequence env1 = IO_Manager_separatorSequence env2 ->
         JSONWorker_process env1 g1 w = JSONWorker_process env2 g2 w.
Proof.
  intros Hacc Hthr. cbn [dispatch].
  erewrite runSlot_result by (by apply readData_threaded).
  eexists _, _, _. split; [done|]. cbn.
  do 5 (split; [done|]). intros env1 env2 g1 g2.
  apply JSONWorker_process_reads.
Qed.

End Worker.

Lemma worker_reads_generator_when_it_runs_witness :
  exists sys' out w,
    @dispatch exampleQt deviceConnected (frameReceived "21")
      (exampleSystem (exampleGenerator 0 kAutomatic true ""))
    = Some (sys', out)
    /\ startedWorkers out = [w]
    /\ JSONWorker_process deviceConnected
         (exampleGenerator 9 kManual false (templateText "%1 * 2")) w
       = JSONWorker_process nothingActive
           (exampleGenerator 1 kManual true (templateText "%1 * 2")) w.
Proof.
  destruct (@worker_reads_generator_when_it_runs exampleQt deviceConnected
              "21"%string (exampleSystem (exampleGenerator 0 kAutomatic true ""))
              eq_refl eq_refl)
    as (sys' & out & w & Hd & Hw & _ & _ & _ & _ & Hsame).
  exists sys', out, w. split; [exact Hd|]. split; [exact Hw|].
  apply Hsame; reflexivity.
Defined.

(** C3, as stated, fails. The frame [{}] is dispatched to a worker in
    automatic mode. If the worker runs at once, it emits the envelope of
    the frame. If [setOperationMode(kManual)] is called after the dispatch
    and before the worker runs (no template is loaded), the worker emits
    nothing. Likewise for the template: the frame [21] is dispatched in
    manual mode with the template of [map.json] loaded; run at once the
    worker emits the document with [42], and run after a load of a missing
    file has emptied the store it emits nothing. *)
Lemma mode_change_after_dispatch_changes_result :
  let sys := exampleSystem (exampleGenerator 0 kAutomatic true "") in
  let sys' := exampleSystem (exampleGenerator 0 kManual true (templateText "%1 * 2")) in
  (readyFrames ∘ snd <$>
     run [(deviceConnected, frameReceived "{}");
          (deviceConnected, threadStarted 0)] sys)
  = Some [JFI_CreateNew 1 1000%N (DocObject ∅)]
  /\ (readyFrames ∘ snd <$>
        run [(deviceConnected, frameReceived "{}");
             (deviceConnected, call_setOperationMode kManual);
             (deviceConnected, threadStarted 0)] sys)
     = Some []
  /\ (readyFrames ∘ snd <$>
        run [(deviceConnected, frameReceived "21");
             (deviceConnected, threadStarted 0)] sys')
     = Some [JFI_CreateNew 1 1000%N (templateDocument "42")]
  /\ (readyFrames ∘ snd <$>
        run [(deviceConnected, frameReceived "21");
             (deviceConnected, call_loadJsonMap "missing.json");
             (deviceConnected, threadStarted 0)] sys')
     = Some [].
Proof. repeat split; reflexivity. Qed.

(** ** C4: the template store after a load *)

Section Store.
Context `{QtLib}.

Lemma processFrame_store env data frame time g g' out :
  processFrame env data frame time g = Some (tt, g', out) ->
  m_jsonMap g' = m_jsonMap g /\ m_jsonMapData g' = m_jsonMapData g.
Proof.
  destruct (m_opMode g) eqn:Hmode.
  - destruct (decide (m_jsonMapData g = ""%string)) as [Hmap|Hmap].
    + rewrite processFrame_noMap by done. by intros [= <- <-].
    + rewrite processFrame_kManual by done. by intros [= <- <-].
  - rewrite processFrame_kAutomatic by done. by intros [= <- <-].
Qed.

(** A load leaves the store consistent, holding either nothing or the whole
    text of the file just read. *)
Lemma loadJsonMap_store env path g g' out :
  storeConsistent g ->
  loadJsonMap env path g = Some (tt, g', out) ->
  storeConsistent g'
  /\ (path <> ""%string ->
      m_jsonMapData g' = ""%string
      \/ exists data document,
           QFile_contents env path = Some data
           /\ fromJson data = Some document
           /\ m_jsonMapData g' = fromUtf8 data).
Proof.
  intros Hg Hload. destruct (decide (path = ""%string)) as [->|Hpath].
  { injection Hload as <- <-. done. }
  destruct (loadJsonMap_result env path g Hpath)
    as (g1 & out1 & Hl & _ & _ & _ & _ & _ & _ & _ & Hcases).
  rewrite Hl in Hload. injection Hload as <- <-.
  unfold storeConsistent in *.
  destruct (QFile_contents env path) as [data|].
  - destruct (fromJson data) as [document|] eqn:Hparse.
    + destruct Hcases as (Hopen & Hdata & _). split; [done|].
      intros _. right. by exists data, document.
    + destruct Hcases as (Hopen & Hdata & _).
      assert (m_jsonMapData g1 = ""%string) as Hempty.
      { rewrite Hdata. destruct (isOpen (m_jsonMap g)) eqn:Hwas; [done|].
        destruct (decide (m_jsonMapData g = ""%string)) as [|Hne]; [done|].
        apply Hg in Hne. congruence. }
      split; [by rewrite Hempty|]. by left.
  - destruct Hcases as (Hopen & Hdata & _). split; [by rewrite Hdata|]. by left.
Qed.

Lemma dispatch_store env ev sys sys' out :
  storeConsistent (generator sys) ->
  dispatch env ev sys = Some (sys', out) ->
  storeConsistent (generator sys').
Proof.
  intros Hg. unfold storeConsistent in *.
  destruct ev as [data| | |path|mode|threaded|json|k|]; cbn [dispatch].
  - unfold runSlot. destruct (readData env data (generator sys))
      as [[[[] g'] out']|] eqn:Hread; [|done].
    intros [= <- <-]. cbn [generator]. revert Hread.
    destruct (accepted env data) eqn:Hacc.
    + destruct (m_processInSeparateThread (generator sys)) eqn:Hthr.
      * rewrite readData_threaded by done. by intros [= <- <-].
      * rewrite readData_inline by done.
        intros [Hmap Hdata]%processFrame_store. by rewrite Hmap, Hdata.
    + rewrite readData_rejected by done. by intros [= <- <-].
  - by intros [= <- <-].
  - by intros [= <- <-].
  - unfold runSlot. destruct (loadJsonMap env path (generator sys))
      as [[[[] g'] out']|] eqn:Hload; [|done].
    intros [= <- <-]. by eapply loadJsonMap_store.
  - by intros [= <- <-].
  - by intros [= <- <-].
  - unfold runSlot, loadJSON, loadJFI. unfold_slot. cbn.
    destruct (_ || _ || _); by intros [= <- <-].
  - destruct (workers sys !! k); [|by intros [= <- <-]].
    destruct (JSONWorker_process _ _ _); [|done]. by intros [= <- <-].
  - destruct (queued sys); [by intros [= <- <-]|].
    unfold runSlot, loadJFI. unfold_slot. cbn.
    destruct (_ || _ || _); by intros [= <- <-].
Qed.

(** The store is consistent in every state the application reaches. *)
Lemma reachable_storeConsistent sys :
  Reachable sys -> storeConsistent (generator sys).
Proof.
  induction 1 as [env settings g out Hnew|env ev sys sys' out _ IH Hd].
  - cbn [generator]. unfold Generator_new, readSettings in Hnew.
    unfold mbind, M_bind, this in Hnew. cbn [m_settings] in Hnew.
    destruct (decide (settings = ""%string)).
    + injection Hnew as <- <-. by intros [].
    + destruct (loadJsonMap _ _ _) as [[[[] g1] out1]|] eqn:Hload; [|done].
      injection Hnew as <- <-.
      eapply loadJsonMap_store in Hload as [Hg _]; [done|].
      intros Hne. by destruct Hne.
  - by eapply dispatch_store.
Qed.

(** C4, as the code has it. When the file cannot be read, or is read and
    does not parse, the store is left empty: no template text, the file
    closed, the saved path cleared. This holds whatever template was held
    before the load; the store is consistent again afterwards. *)
Theorem failed_load_empties_store env path g :
  storeConsistent g ->
  path <> ""%string ->
  (QFile_contents env path = None
   \/ exists data, QFile_contents env path = Some data /\ fromJson data = None) ->
  exists g' out,
    loadJsonMap env path g = Some (tt, g', out)
    /\ m_jsonMapData g' = ""%string
    /\ isOpen (m_jsonMap g') = false
    /\ m_settings g' = ""%string
    /\ storeConsistent g'.
Proof.
  intros Hg Hpath Hfail.
  destruct (loadJsonMap_result env path g Hpath)
    as (g' & out & Hl & _ & _ & _ & _ & _ & _ & _ & Hcases).
  exists g', out. split; [done|].
  destruct (loadJsonMap_store env path g g' out Hg Hl) as [Hg' Hwhole].
  destruct Hfail as [Hnone|(data & Hsome & Hparse)].
  - rewrite Hnone in Hcases. by destruct Hcases as (? & ? & ?).
  - rewrite Hsome, Hparse in Hcases. destruct Hcases as (Hopen & _ & Hset).
    split; [|done]. destruct (Hwhole Hpath) as [|(d & doc & Hd & Hp & _)]; [done|].
    congruence.
Qed.

End Store.

Lemma failed_load_empties_store_witness :
  exists g' out,
    @loadJsonMap exampleQt deviceConnected "broken.json"
      (exampleGenerator 0 kAutomatic false (templateText "%1 * 2"))
    = Some (tt, g', out)
    /\ m_jsonMapData g' = ""%string
    /\ isOpen (m_jsonMap g') = false
    /\ m_settings g' = ""%string
    /\ storeConsistent g'.
Proof.
  apply (@failed_load_empties_store exampleQt deviceConnected "broken.json"%string
           (exampleGenerator 0 kAutomatic false (templateText "%1 * 2"))).
  - intros _. reflexivity.
  - discriminate.
  - right. exists "{"%string. split; reflexivity.
Defined.

(** C4, as stated, fails. The application starts with [map.json] as the
    saved path: the template is loaded. A load of a file that cannot be
    read, or of one that does not parse, then leaves the store empty: the
    template that was held is gone. *)
Lemma failed_load_loses_template :
  let g := exampleGenerator 0 kAutomatic false (templateText "%1 * 2") in
  @Generator_new exampleQt deviceConnected "map.json"
  = Some (tt, g, [jsonFileMapChanged])
  /\ m_jsonMapData g = templateText "%1 * 2"
  /\ QFile_contents deviceConnected "missing.json" = None
  /\ (m_jsonMapData ∘ snd ∘ fst <$> loadJsonMap deviceConnected "missing.json" g)
     = Some ""%string
  /\ (@fromJson exampleQt <$> QFile_contents deviceConnected "broken.json")
     = Some None
  /\ (m_jsonMapData ∘ snd ∘ fst <$> loadJsonMap deviceConnected "broken.json" g)
     = Some ""%string.
Proof. repeat split; reflexivity. Qed.
(** ** C6: a dataset whose evaluation fails *)

Section Evaluation.
Context `{QtLib}.

Lemma QJsonObject_value_reinsert o key v :
  QJsonObject_value (QJsonObject_reinsert o key v) key = v.
Proof.
  unfold QJsonObject_value, QJsonObject_reinsert. by rewrite lookup_insert_eq.
Qed.

(** The texts evaluated before a dataset are the part of the texts of the
    document that comes before its own. *)
Lemma valuesBefore_datasetValues document i j d :
  datasetAt document i j = Some d ->
  exists after,
    datasetValues document = valuesBefore document i j ++ datasetValue d :: after.
Proof.
  unfold datasetAt, datasetValues, valuesBefore, QJsonArray_at.
  set (groups := QJsonValue_toArray
                   (QJsonObject_value (QJsonDocument_object document) "g")).
  destruct (groups !! i) as [g|] eqn:Hi; [|done]. cbn [mbind option_bind default].
  unfold groupValues at 3.
  set (datasets := QJsonValue_toArray
                     (QJsonObject_value (QJsonValue_toObject g) "d")).
  intros Hj.
  exists ((datasetValue <$> drop (S j) datasets) ++ (drop (S i) groups ≫= groupValues)).
  rewrite <- (take_drop_middle groups i g Hi) at 1.
  rewrite bind_app, bind_cons. unfold groupValues at 2. fold datasets.
  rewrite <- (take_drop_middle datasets j d Hj) at 1.
  rewrite fmap_app, fmap_cons, fmap_take. by rewrite <- !app_assoc.
Qed.

(** The dataset at position [j] of group [i] after the evaluation loops is
    what the inner loop makes of the dataset that was there, on the engine
    as the datasets visited before have left it. *)
Lemma datasetAt_evaluated document engine i j d :
  datasetAt document i j = Some d ->
  datasetAt (evaluateDatasets document engine).1 i j
  = Some (evaluatedDataset d (engineAfter (valuesBefore document i j) engine)).1.
Proof.
  unfold datasetAt, valuesBefore, QJsonArray_at.
  rewrite evaluateDatasets_mapS. cbn [fst].
  cbn [QJsonDocument_object]. rewrite QJsonObject_value_reinsert.
  cbn [QJsonValue_toArray].
  set (groups := QJsonValue_toArray
                   (QJsonObject_value (QJsonDocument_object document) "g")).
  destruct (groups !! i) as [g|] eqn:Hi; [|done]. cbn [mbind option_bind default].
  unfold groupValues at 2.
  set (datasets := QJsonValue_toArray
                     (QJsonObject_value (QJsonValue_toObject g) "d")).
  intros Hj.
  rewrite (mapS_lookup evaluatedGroup groups engine i g Hi).
  cbn [mbind option_bind]. rewrite evaluatedGroups_engine.
  unfold evaluatedGroup at 1. fold datasets.
  pose proof (mapS_lookup evaluatedDataset datasets
                (engineAfter (take i groups ≫= groupValues) engine) j d Hj) as Hd.
  destruct (mapS evaluatedDataset datasets _) as [datasets' engine'].
  cbn [fst QJsonValue_toObject]. rewrite QJsonObject_value_reinsert.
  cbn [QJsonValue_toArray]. cbn [fst] in Hd. rewrite Hd.
  rewrite evaluatedDatasets_engine, <- fmap_take. by rewrite engineAfter_app.
Qed.

Lemma evaluateDatasets_datasetsEvaluated document engine :
  datasetsEvaluated engine document (evaluateDatasets document engine).1.
Proof.
  intros i j d Hd. cbn zeta.
  rewrite (datasetAt_evaluated document engine i j d Hd).
  unfold evaluatedDataset. fold (datasetValue d).
  destruct (evaluate (engineAfter (valuesBefore document i j) engine)
              (datasetValue d)) as [engine' jsValue]. cbn [fst snd].
  split; intros Herr; rewrite Herr; [|done].
  eexists. split; [done|]. unfold QJsonObject_reinsert.
  split; [by rewrite lookup_insert_eq|].
  intros key Hkey. by rewrite lookup_insert_ne, lookup_delete_ne.
Qed.

(** C6. In manual mode with a template loaded, when the template with the
    fields of the frame written in parses, [processFrame] emits exactly one
    envelope, with the number and the time of the frame. Each dataset of
    the parsed document is evaluated on the engine as the datasets before
    it have left it: when the result is not an error, the dataset in the
    emitted document has the text of the result under "v" and its other
    members as before; when it is an error, the dataset in the emitted
    document is the one that was parsed, and the envelope is emitted all
    the same. A worker does the same for its frame, from a new engine, and
    emits the envelope with [jsonReady]. *)
Theorem evaluation_error_keeps_dataset env data frame time g json document :
  m_opMode g = kManual ->
  m_jsonMapData g <> ""%string ->
  addToJsonMap 0 (frameFields env data) (toStdString (m_jsonMapData g)) = Some json ->
  fromJson (toUtf8 (fromStdString json)) = Some document ->
  (exists g' document',
     processFrame env data frame time g
     = Some (tt, g', [jsonChanged (JFI_CreateNew frame time document')])
     /\ datasetsEvaluated (m_engine g) document document')
  /\ (forall w,
        m_data w = data ->
        exists document',
          JSONWorker_process env g w
          = Some [jsonReady (JFI_CreateNew (m_frame w) (m_time w) document');
                  finished]
          /\ datasetsEvaluated QJSEngine_new document document').
Proof.
  intros Hmode Hmap Hjson Hparse.
  rewrite addToJsonMap_substituted in Hjson. injection Hjson as <-. split.
  - rewrite processFrame_kManual by done. cbn zeta. rewrite Hparse. cbn [default].
    exists (with_engine (evaluateDatasets document (m_engine g)).2 g),
      (evaluateDatasets document (m_engine g)).1.
    split; [done|]. apply evaluateDatasets_datasetsEvaluated.
  - intros w Hw. subst data. exists (evaluateDatasets document QJSEngine_new).1.
    split; [|apply evaluateDatasets_datasetsEvaluated].
    unfold JSONWorker_process. rewrite Hmode, decide_False by done.
    rewrite addToJsonMap_substituted. cbn [mbind option_bind].
    rewrite Hparse. cbn [default id].
    by destruct (evaluateDatasets document QJSEngine_new).
Qed.

End Evaluation.

Lemma evaluation_error_keeps_dataset_witness :
  (exists g' document',
     @processFrame exampleQt deviceConnected "21" 1 1000%N
       (exampleGenerator 1 kManual false (templateText "%1 * 2"))
     = Some (tt, g', [jsonChanged (JFI_CreateNew 1 1000%N document')])
     /\ @datasetsEvaluated exampleQt 0%N (templateDocument "21 * 2") document')
  /\ (forall w,
        m_data w = "21"%string ->
        exists document',
          @JSONWorker_process exampleQt deviceConnected
            (exampleGenerator 1 kManual false (templateText "%1 * 2")) w
          = Some [jsonReady (JFI_CreateNew (m_frame w) (m_time w) document');
                  finished]
          /\ @datasetsEvaluated exampleQt 0%N (templateDocument "21 * 2") document').
Proof.
  apply (@evaluation_error_keeps_dataset exampleQt deviceConnected "21"%string
           1%N 1000%N (exampleGenerator 1 kManual false (templateText "%1 * 2"))
           (toStdString (templateText "21 * 2")) (templateDocument "21 * 2")).
  - reflexivity.
  - discriminate.
  - reflexivity.
  - reflexivity.
Defined.

(** The two cases of C6 on the example instance: the program [21 * 2]
    evaluates to [42], which replaces it; the program [21 *] is an error,
    and the dataset is emitted as it was parsed. *)
Example evaluated_dataset_example :
  envelopes <$> (snd <$> @processFrame exampleQt deviceConnected "21" 1 1000%N
                   (exampleGenerator 1 kManual false (templateText "%1 * 2")))
  = Some [JFI_CreateNew 1 1000%N (templateDocument "42")].
Proof. reflexivity. Qed.

Example failed_dataset_example :
  envelopes <$> (snd <$> @processFrame exampleQt deviceConnected "21" 1 1000%N
                   (exampleGenerator 1 kManual false (templateText "%1 *")))
  = Some [JFI_CreateNew 1 1000%N (templateDocument "21 *")].
Proof. reflexivity. Qed.

(** ** C5: the state of the engine *)

Section Engine.
Context `{QtLib}.

(** C5, as the code has it. On the main thread the datasets of a frame are
    evaluated on the engine of the generator, and the engine is left as
    these evaluations leave it: the next frame starts from there. A frame
    processed from the same operation mode, template and engine state gives
    the same result. A worker does not use the engine of the generator. *)
Theorem engine_state_carries_over env data frame time g :
  m_opMode g = kManual ->
  m_jsonMapData g <> ""%string ->
  exists json g' out,
    addToJsonMap 0 (frameFields env data) (toStdString (m_jsonMapData g)) = Some json
    /\ processFrame env data frame time g = Some (tt, g', out)
    /\ m_engine g'
       = engineAfter
           (datasetValues (default DocNull (fromJson (toUtf8 (fromStdString json)))))
           (m_engine g)
    /\ (forall h,
          m_opMode h = m_opMode g ->
          m_jsonMapData h = m_jsonMapData g ->
          m_engine h = m_engine g ->
          exists h',
            processFrame env data frame time h = Some (tt, h', out)
            /\ m_engine h' = m_engine g')
    /\ (forall w engine,
          JSONWorker_process env (with_engine engine g) w
          = JSONWorker_process env g w).
Proof.
  intros Hmode Hmap. eexists _, _, _.
  split; [apply addToJsonMap_substituted|].
  split; [by apply processFrame_kManual|].
  split; [cbn [with_engine m_engine]; apply evaluateDatasets_engine|].
  split; [|done].
  intros h Hmode' Hmap' Hengine. eexists. split.
  - rewrite processFrame_kManual by congruence. rewrite Hmap', Hengine. done.
  - done.
Qed.

End Engine.

Lemma engine_state_carries_over_witness :
  exists json g' out,
    addToJsonMap 0 (@frameFields exampleQt deviceConnected "21")
      (toStdString (templateText counterProgram)) = Some json
    /\ @processFrame exampleQt deviceConnected "21" 1 1000%N
         (exampleGenerator 1 kManual false (templateText counterProgram))
       = Some (tt, g', out)
    /\ m_engine g' = 1%N.
Proof.
  destruct (@engine_state_carries_over exampleQt deviceConnected "21"%string
              1%N 1000%N
              (exampleGenerator 1 kManual false (templateText counterProgram))
              eq_refl)
    as (json & g' & out & Hjson & Hframe & Hengine & _).
  - discriminate.
  - exists json, g', out. split; [exact Hjson|]. split; [exact Hframe|].
    rewrite Hengine.
    rewrite addToJsonMap_substituted in Hjson. injection Hjson as <-.
    reflexivity.
Defined.

(** C5, as stated, fails. The dataset holds a program that counts in a
    global variable. The same frame is processed twice on the main thread,
    with the same template, frame number and time: no evaluation is an
    error, and the text of the dataset is [1] the first time and [2] the
    second. *)
Lemma same_expression_evaluates_differently :
  let g0 := exampleGenerator 0 kManual false (templateText counterProgram) in
  exists g1 g2,
    @processFrame exampleQt deviceConnected "21" 1 1000%N g0
    = Some (tt, g1, [jsonChanged (JFI_CreateNew 1 1000%N (templateDocument "1"))])
    /\ processFrame deviceConnected "21" 1 1000%N g1
       = Some (tt, g2, [jsonChanged (JFI_CreateNew 1 1000%N (templateDocument "2"))])
    /\ m_opMode g1 = m_opMode g0
    /\ m_jsonMapData g1 = m_jsonMapData g0
    /\ isError (example_evaluate 0 counterProgram).2 = false
    /\ isError (example_evaluate 1 counterProgram).2 = false.
Proof. eexists _, _. repeat split; reflexivity. Qed.

(** * Further properties *)

(** ** The markers and the passes *)

Lemma list_ascii_of_string_inj s1 s2 :
  list_ascii_of_string s1 = list_ascii_of_string s2 -> s1 = s2.
Proof.
  intros Heq. rewrite <- (string_of_list_ascii_of_string s1).
  rewrite <- (string_of_list_ascii_of_string s2). by rewrite Heq.
Qed.

Lemma to_uint_not_nil n : Nat.to_uint n <> Decimal.Nil.
Proof.
  intros Hnil. pose proof (DecimalNat.Unsigned.to_of (Nat.to_uint n)) as Hto.
  rewrite DecimalNat.Unsigned.of_to, Hnil in Hto. discriminate.
Qed.

Lemma to_string_inj n m : std.to_string n = std.to_string m -> n = m.
Proof.
  unfold std.to_string. intros Heq%list_ascii_of_string_inj.
  assert (Some (Nat.to_uint n) = Some (Nat.to_uint m)) as Huint.
  { rewrite <- (NilZero.usu (Nat.to_uint n)) by apply to_uint_not_nil.
    rewrite <- (NilZero.usu (Nat.to_uint m)) by apply to_uint_not_nil.
    by rewrite Heq. }
  injection Huint as Huint. by apply DecimalNat.Unsigned.to_uint_inj.
Qed.

(** X1. The markers of two different fields are different texts: every field
    has a marker of its own. *)
Theorem placeholder_differs i j : i <> j -> placeholder i <> placeholder j.
Proof.
  unfold placeholder. intros Hne [= Heq]. apply to_string_inj in Heq. lia.
Qed.

Lemma placeholder_differs_witness : placeholder 0 <> placeholder 9.
Proof. apply (placeholder_differs 0 9). discriminate. Defined.

Lemma starts_with_head c id s :
  std.starts_with (c :: id) s = true -> head s = Some c.
Proof.
  destruct s as [|d s]; [done|]. cbn.
  destruct (Ascii.eqb c d) eqn:Hcd; [|done]. by apply Ascii.eqb_eq in Hcd as ->.
Qed.

Lemma find_from_absent c id s p :
  c ∉ s -> std.find_from (c :: id) s p = None.
Proof.
  revert p. induction s as [|d s IH]; intros p Hnot; [done|].
  cbn [std.find_from].
  destruct (std.starts_with (c :: id) (d :: s)) eqn:Hst.
  - apply starts_with_head in Hst. injection Hst as ->. set_solver.
  - apply IH. set_solver.
Qed.

Lemma pass_without_marker i value json :
  std.find json (placeholder i) 0 = None ->
  replaceAll (placeholder i) value 0 json = json.
Proof.
  unfold std.find. rewrite decide_True by lia. rewrite drop_0.
  apply find_from_None.
Qed.

Lemma substituted_without_marker list i json :
  (forall k, k < length list -> std.find json (placeholder (i + k)) 0 = None) ->
  substituted i list json = json.
Proof.
  revert i. induction list as [|value rest IH]; intros i Habsent; [done|].
  cbn [substituted]. rewrite pass_without_marker.
  - apply IH. intros k Hk. replace (S i + k) with (i + S k) by lia.
    apply Habsent. cbn. lia.
  - specialize (Habsent 0). rewrite Nat.add_0_r in Habsent. apply Habsent. cbn. lia.
Qed.

(** X2. When the markers of the fields do not occur in the text, the
    substitution returns the text as it is: a marker without a field, and
    any text that is not a marker, is left untouched. *)
Theorem fields_without_marker_keep_text list i json :
  (forall k, k < length list -> std.find json (placeholder (i + k)) 0 = None) ->
  addToJsonMap i list json = Some json.
Proof.
  intros Habsent. rewrite addToJsonMap_substituted.
  by rewrite substituted_without_marker.
Qed.

Lemma fields_without_marker_keep_text_witness :
  addToJsonMap 0 [toStdString "10"; toStdString "20"] (toStdString "z=%3")
  = Some (toStdString "z=%3").
Proof.
  apply (fields_without_marker_keep_text
           [toStdString "10"; toStdString "20"] 0 (toStdString "z=%3")).
  intros [|[|k]] Hk; [reflexivity | reflexivity | cbn in Hk; lia].
Defined.

(** X3. A text without the character [%] is unchanged by every list of
    fields. *)
Theorem text_without_percent_is_kept list i json :
  "%"%char ∉ json -> addToJsonMap i list json = Some json.
Proof.
  intros Hnot. rewrite addToJsonMap_substituted.
  rewrite substituted_without_marker; [done|]. intros k _.
  unfold std.find, placeholder. rewrite decide_True by lia. rewrite drop_0.
  by apply find_from_absent.
Qed.

Lemma text_without_percent_is_kept_witness :
  addToJsonMap 0 [toStdString "10"; toStdString "20"] (toStdString "{}")
  = Some (toStdString "{}").
Proof.
  apply (text_without_percent_is_kept
           [toStdString "10"; toStdString "20"] 0 (toStdString "{}")).
  cbn. rewrite !elem_of_cons, elem_of_nil. intros [|[|[]]]; discriminate.
Defined.

(** X4. The [while] loop ends from every start position inside the text, also
    when the value contains the marker it replaces; what lies before the
    start position is kept as it is, and the rest is scanned once, from
    left to right. *)
Theorem loop_ends_and_keeps_text_before fuel id value json start_pos :
  id <> [] ->
  start_pos <= length json ->
  length json - start_pos < fuel ->
  replaceOccurrences fuel id value json start_pos
  = Some (take start_pos json ++ replaceAll id value 0 (drop start_pos json)).
Proof.
  intros Hid Hpos Hfuel.
  pose proof (replaceOccurrences_scan fuel id value (take start_pos json)
                (drop start_pos json) Hid) as Hscan.
  rewrite take_drop, length_take, length_drop in Hscan.
  replace (start_pos `min` length json) with start_pos in Hscan by lia.
  by apply Hscan.
Qed.

Lemma loop_ends_and_keeps_text_before_witness :
  replaceOccurrences 7 (placeholder 0) (toStdString "<%1>")
    (toStdString "%1 %1 %1") 3
  = Some (toStdString "%1 <%1> <%1>").
Proof.
  apply (loop_ends_and_keeps_text_before 7 (placeholder 0) (toStdString "<%1>")
           (toStdString "%1 %1 %1") 3).
  - discriminate.
  - cbn. lia.
  - cbn. lia.
Defined.

(** X5. The fields are processed one after the other: substituting a list of
    fields is substituting its first part, and then the rest with the
    markers that follow. *)
Theorem addToJsonMap_app list1 list2 i json :
  addToJsonMap i (list1 ++ list2) json
  = json' ← addToJsonMap i list1 json;
    addToJsonMap (i + length list1) list2 json'.
Proof.
  rewrite !addToJsonMap_substituted. cbn [mbind option_bind].
  rewrite addToJsonMap_substituted. f_equal.
  revert i json. induction list1 as [|value rest IH]; intros i json.
  - cbn. by rewrite Nat.add_0_r.
  - cbn [app substituted length]. rewrite IH. f_equal. lia.
Qed.

(** ** Frames and documents *)

Lemma mapS_length {A St : Type} (f : A -> St -> A * St) l s :
  length (mapS f l s).1 = length l.
Proof.
  revert s. induction l as [|x l IH]; intros s; [done|].
  cbn [mapS]. destruct (f x s) as [y s']. specialize (IH s').
  destruct (mapS f l s'). simpl in *. by rewrite IH.
Qed.

Section Frames.
Context `{QtLib}.

Lemma with_engine_same g : with_engine (m_engine g) g = g.
Proof. by destruct g. Qed.

(** X6. In automatic mode a frame accepted on the main thread that parses is
    emitted as it was parsed, in one envelope with the new value of the
    counter and the time of arrival; the template and the engine are not
    used and stay as they are. *)
Theorem automatic_frame_is_its_document env data g document :
  accepted env data = true ->
  m_processInSeparateThread g = false ->
  m_opMode g = kAutomatic ->
  fromJson data = Some document ->
  readData env data g
  = Some (tt, with_frameCount (quint64_incr (m_frameCount g)) g,
          [jsonChanged (JFI_CreateNew (quint64_incr (m_frameCount g))
                          (currentDateTime env) document)]).
Proof.
  intros Hacc Hthr Hmode Hparse. rewrite readData_inline by done.
  rewrite processFrame_kAutomatic by done. by rewrite Hparse.
Qed.

Lemma evaluateDatasets_null engine :
  (evaluateDatasets DocNull engine).2 = engine.
Proof. by rewrite evaluateDatasets_engine. Qed.

(** X7. In manual mode, when the template with the fields written in does not
    parse, no program is run: the generator, its engine included, is as
    before, and nothing is emitted. *)
Theorem unparsed_frame_runs_no_program env data frame time g json :
  m_opMode g = kManual ->
  m_jsonMapData g <> ""%string ->
  addToJsonMap 0 (frameFields env data) (toStdString (m_jsonMapData g)) = Some json ->
  fromJson (toUtf8 (fromStdString json)) = None ->
  processFrame env data frame time g = Some (tt, g, []).
Proof.
  intros Hmode Hmap Hjson Hparse.
  rewrite addToJsonMap_substituted in Hjson. injection Hjson as <-.
  rewrite processFrame_kManual by done. cbn zeta.
  rewrite Hparse. cbn [default]. rewrite evaluateDatasets_null.
  by rewrite with_engine_same.
Qed.

(** X8. The evaluation loops keep the shape of the document. The result is an
    object; its members other than "g" are those of the parsed root; under
    "g" it has an array with as many groups as were parsed; each group is
    an object with the members of the parsed group other than "d", and
    under "d" an array with as many datasets as the parsed group had (none
    when the group was not an object or had no array under "d"). *)
Theorem evaluation_keeps_structure document engine :
  exists root' groups',
    (evaluateDatasets document engine).1 = DocObject root'
    /\ (forall key, key <> "g"%string ->
          root' !! key = QJsonDocument_object document !! key)
    /\ root' !! "g"%string = Some (JsonArray groups')
    /\ length groups'
       = length (QJsonValue_toArray
                   (QJsonObject_value (QJsonDocument_object document) "g"))
    /\ forall i g,
         QJsonValue_toArray
           (QJsonObject_value (QJsonDocument_object document) "g") !! i = Some g ->
         exists group' datasets',
           groups' !! i = Some (JsonObject group')
           /\ (forall key, key <> "d"%string ->
                 group' !! key = QJsonValue_toObject g !! key)
           /\ group' !! "d"%string = Some (JsonArray datasets')
           /\ length datasets'
              = length (QJsonValue_toArray
                          (QJsonObject_value (QJsonValue_toObject g) "d")).
Proof.
  rewrite evaluateDatasets_mapS. cbn [fst].
  set (groups := QJsonValue_toArray
                   (QJsonObject_value (QJsonDocument_object document) "g")).
  exists (QJsonObject_reinsert (QJsonDocument_object document) "g"
            (JsonArray (mapS evaluatedGroup groups engine).1)),
    (mapS evaluatedGroup groups engine).1.
  split; [done|]. unfold QJsonObject_reinsert.
  split; [intros key Hkey; by rewrite lookup_insert_ne, lookup_delete_ne|].
  split; [by rewrite lookup_insert_eq|].
  split; [apply mapS_length|].
  intros i g Hi. rewrite (mapS_lookup evaluatedGroup groups engine i g Hi).
  unfold evaluatedGroup.
  pose proof (mapS_length evaluatedDataset
    (QJsonValue_toArray (QJsonObject_value (QJsonValue_toObject g) "d"))
    (foldl (fun s x => (evaluatedGroup x s).2) engine (take i groups))) as Hlen.
  fold evaluatedGroup in Hlen |- *.
  destruct (mapS evaluatedDataset _ _) as [datasets' engine']. cbn [fst] in *.
  exists (<["d"%string := JsonArray datasets']>
            (delete "d"%string (QJsonValue_toObject g))), datasets'.
  split; [done|].
  split; [intros key Hkey; by rewrite lookup_insert_ne, lookup_delete_ne|].
  split; [by rewrite lookup_insert_eq|done].
Qed.

(** X9. In manual mode, when the template with the fields written in parses to
    a document whose root has no array under "g" (the member is missing or
    of another type, or the document is an array), the envelope is emitted
    all the same: its document is the root with an empty array under "g";
    no program is run and the generator is as before. *)
Theorem document_without_groups env data frame time g json document :
  m_opMode g = kManual ->
  m_jsonMapData g <> ""%string ->
  addToJsonMap 0 (frameFields env data) (toStdString (m_jsonMapData g)) = Some json ->
  fromJson (toUtf8 (fromStdString json)) = Some document ->
  QJsonValue_toArray (QJsonObject_value (QJsonDocument_object document) "g") = [] ->
  processFrame env data frame time g
  = Some (tt, g,
          [jsonChanged
             (JFI_CreateNew frame time
                (DocObject (<["g"%string := JsonArray []]>
                              (delete "g"%string (QJsonDocument_object document)))))]).
Proof.
  intros Hmode Hmap Hjson Hparse Hnone.
  rewrite addToJsonMap_substituted in Hjson. injection Hjson as <-.
  rewrite processFrame_kManual by done. cbn zeta.
  rewrite Hparse. cbn [default id]. unfold evaluateDatasets. rewrite Hnone.
  cbn [length seq foldl fst snd]. by rewrite with_engine_same.
Qed.

(** X10. A dataset that has no text under "v" (it is not an object, the member
    is missing, or it is a number or another value that is not a string) is
    evaluated as the empty program; when that is not an error, the dataset
    comes out as an object with the text of the result under "v", whatever
    was there before. *)
Theorem dataset_without_text_value document engine i j d :
  datasetAt document i j = Some d ->
  (forall s, QJsonValue_toObject d !! "v"%string <> Some (JsonString s)) ->
  datasetValue d = ""%string
  /\ let jsValue :=
       (evaluate (engineAfter (valuesBefore document i j) engine) "").2 in
     (isError jsValue = false ->
      datasetAt (evaluateDatasets document engine).1 i j
      = Some (JsonObject
                (<["v"%string := JsonString (QJSValue_toString jsValue)]>
                   (delete "v"%string (QJsonValue_toObject d))))).
Proof.
  intros Hd Hnot.
  assert (datasetValue d = ""%string) as Hvalue.
  { unfold datasetValue, QJsonObject_value.
    destruct (QJsonValue_toObject d !! "v"%string) as [[]|] eqn:Hv; try done.
    by destruct (Hnot s). }
  split; [done|]. cbn zeta. intros Herr.
  rewrite (datasetAt_evaluated document engine i j d Hd).
  unfold evaluatedDataset. fold (datasetValue d). rewrite Hvalue.
  destruct (evaluate _ ""%string) as [engine' jsValue]. cbn [snd] in Herr.
  by rewrite Herr.
Qed.

(** X11. The worker and the main thread build the same envelope for a frame when
    the engine of the generator is as new: what [processFrame] would emit
    with [jsonChanged], [process] emits with [jsonReady]. *)
Theorem worker_and_main_thread_agree env g w :
  m_engine g = QJSEngine_new ->
  exists g' out out',
    processFrame env (m_data w) (m_frame w) (m_time w) g = Some (tt, g', out)
    /\ JSONWorker_process env g w = Some out'
    /\ readyFrames out' = envelopes out.
Proof.
  intros Hnew. unfold JSONWorker_process.
  destruct (m_opMode g) eqn:Hmode.
  - destruct (decide (m_jsonMapData g = ""%string)) as [Hmap|Hmap].
    + rewrite processFrame_noMap by done. by eexists _, _, _.
    + rewrite processFrame_kManual by done. cbn zeta.
      rewrite addToJsonMap_substituted. cbn [mbind option_bind]. rewrite Hnew.
      destruct (evaluateDatasets _ QJSEngine_new) as [document engine].
      cbn [fst snd]. destruct (fromJson _); by eexists _, _, _.
  - rewrite processFrame_kAutomatic by done.
    destruct (fromJson _); by eexists _, _, _.
Qed.

(** X12. A worker ends with the signal [finished], which lets its thread quit,
    in every case but one: in manual mode with no template loaded it
    returns before, and emits nothing at all. *)
Theorem worker_finishes_unless_no_template env g w :
  exists out,
    JSONWorker_process env g w = Some out
    /\ (m_opMode g = kManual /\ m_jsonMapData g = ""%string -> out = [])
    /\ (~ (m_opMode g = kManual /\ m_jsonMapData g = ""%string) ->
        last out = Some finished).
Proof.
  unfold JSONWorker_process. destruct (m_opMode g) eqn:Hmode.
  - destruct (decide (m_jsonMapData g = ""%string)) as [Hmap|Hmap].
    + exists []. split; [done|]. split; [done|]. intros Hnot. by destruct Hnot.
    + rewrite addToJsonMap_substituted. cbn [mbind option_bind].
      destruct (evaluateDatasets _ _) as [document engine].
      destruct (fromJson _); eexists; (split; [done|]);
        (split; [by intros [_ ?]|done]).
  - destruct (fromJson _); eexists; (split; [done|]);
      (split; [by intros [? _]|done]).
Qed.

End Frames.

(** ** The template store, saved and restored *)

Section StoreMore.
Context `{QtLib}.

(** X13. What a load saves restores what the store holds: after any load of a
    path, an application started with the saved path, with the files as
    they were, holds the same template text, with its file open or closed
    as in the store, and saves the same path again. *)
Theorem saved_path_restores_store env path g :
  storeConsistent g ->
  path <> ""%string ->
  exists g' out g0 out0,
    loadJsonMap env path g = Some (tt, g', out)
    /\ Generator_new env (m_settings g') = Some (tt, g0, out0)
    /\ m_jsonMapData g0 = m_jsonMapData g'
    /\ isOpen (m_jsonMap g0) = isOpen (m_jsonMap g')
    /\ m_settings g0 = m_settings g'.
Proof.
  intros Hg Hpath.
  destruct (loadJsonMap_result env path g Hpath)
    as (g' & out & Hl & _ & _ & _ & _ & _ & _ & _ & Hcases).
  destruct (loadJsonMap_store env path g g' out Hg Hl) as [Hg' _].
  exists g', out.
  assert (m_settings g' = ""%string ->
          m_jsonMapData g' = ""%string /\ isOpen (m_jsonMap g') = false ->
          exists g0 out0,
            loadJsonMap env path g = Some (tt, g', out)
            /\ Generator_new env (m_settings g') = Some (tt, g0, out0)
            /\ m_jsonMapData g0 = m_jsonMapData g'
            /\ isOpen (m_jsonMap g0) = isOpen (m_jsonMap g')
            /\ m_settings g0 = m_settings g') as Hempty.
  { intros Hset [Hdata Hopen]. rewrite Hset, Hdata, Hopen.
    eexists _, _. split; [done|]. unfold Generator_new, readSettings.
    unfold mbind, M_bind, this. cbn. done. }
  destruct (QFile_contents env path) as [data|] eqn:Hfile.
  - destruct (fromJson data) as [document|] eqn:Hparse.
    + destruct Hcases as (Hopen & Hdata & Hset). rewrite Hset, Hdata, Hopen.
      unfold Generator_new, readSettings. unfold mbind, M_bind, this.
      cbn [m_settings]. rewrite decide_False by done.
      destruct (loadJsonMap_result env path
                  {| m_frameCount := 0; m_opMode := kAutomatic;
                     m_processInSeparateThread := false;
                     m_jsonMap := {| fileName := ""; isOpen := false |};
                     m_jsonMapData := ""; m_settings := path;
                     m_engine := QJSEngine_new |} Hpath)
        as (g0 & out0 & Hl0 & _ & _ & _ & _ & _ & _ & _ & Hcases0).
      rewrite Hfile, Hparse in Hcases0. destruct Hcases0 as (Hopen0 & Hdata0 & Hset0).
      rewrite Hl0. exists g0, ([] ++ out0). by rewrite Hopen0, Hdata0, Hset0.
    + destruct Hcases as (Hopen & Hdata & Hset). apply Hempty; [done|].
      split; [|done]. destruct (decide (m_jsonMapData g' = ""%string)); [done|].
      apply Hg' in n. congruence.
  - destruct Hcases as (Hopen & Hdata & Hset). by apply Hempty.
Qed.

(** X14. A load that succeeds holds the whole text of the file, with the file
    open under the path and the path saved; loading the same file once
    more, with the files as they were, leaves the generator exactly as it
    is. *)
Theorem successful_load_is_repeatable env path data document g :
  path <> ""%string ->
  QFile_contents env path = Some data ->
  fromJson data = Some document ->
  exists g' out out',
    loadJsonMap env path g = Some (tt, g', out)
    /\ m_jsonMapData g' = fromUtf8 data
    /\ m_jsonMap g' = {| fileName := path; isOpen := true |}
    /\ m_settings g' = path
    /\ loadJsonMap env path g' = Some (tt, g', out').
Proof.
  intros Hpath Hfile Hparse.
  assert (forall g0, loadJsonMap env path g0
          = Some (tt, with_jsonMapData (fromUtf8 data)
                        (with_settings path
                           (with_jsonMap {| fileName := path; isOpen := true |} g0)),
                  (if isOpen (m_jsonMap g0) then [jsonFileMapChanged] else [])
                  ++ [jsonFileMapChanged])) as Hload.
  { intros g0. unfold loadJsonMap. rewrite decide_False by done. unfold_slot.
    destruct (isOpen (m_jsonMap g0)) eqn:Hopen; cbn; rewrite ?Hopen, Hfile; cbn;
      rewrite Hparse; destruct g0; reflexivity. }
  eexists _, _, _. split; [apply Hload|]. do 3 (split; [done|]).
  rewrite Hload. by destruct g.
Qed.

(** X15. A load changes the store and nothing else: the frame counter, the
    operation mode, the threading mode and the engine are as before, no
    envelope is emitted and no worker is started, whether the load succeeds
    or not. A load from the file dialog is the same load; when the dialog
    returns no file nothing changes. *)
Theorem load_changes_only_the_store env path g :
  (exists g' out,
     loadJsonMap env path g = Some (tt, g', out)
     /\ m_frameCount g' = m_frameCount g
     /\ m_opMode g' = m_opMode g
     /\ m_processInSeparateThread g' = m_processInSeparateThread g
     /\ m_engine g' = m_engine g
     /\ envelopes out = []
     /\ startedWorkers out = [])
  /\ loadJsonMap_selected env path g = loadJsonMap env path g
  /\ loadJsonMap_selected env ""%string g = Some (tt, g, []).
Proof.
  split; [|split; [|done]].
  - destruct (decide (path = ""%string)) as [->|Hpath]; [by exists g, []|].
    destruct (loadJsonMap_result env path g Hpath)
      as (g' & out & Hl & ? & ? & ? & ? & ? & ? & _).
    by exists g', out.
  - unfold loadJsonMap_selected, loadJsonMap.
    by destruct (decide (path = ""%string)).
Qed.

End StoreMore.

(** ** The file the generator reports *)

Section Reported.
Context `{QtLib}.
Variable QFileInfo_fileName : QString -> QString.
Variable QFileInfo_filePath : QString -> QString.

(** X16. After a load that fails, [jsonMapFilename] and [jsonMapFilepath]
    return the empty text, whatever file was reported before; after a load
    that succeeds they report the path just loaded. *)
Theorem map_file_reported_after_load env path g :
  path <> ""%string ->
  exists g' out,
    loadJsonMap env path g = Some (tt, g', out)
    /\ (QFile_contents env path = None
        \/ (exists data, QFile_contents env path = Some data
                         /\ fromJson data = None) ->
        jsonMapFilename QFileInfo_fileName g' = ""%string
        /\ jsonMapFilepath QFileInfo_filePath g' = ""%string)
    /\ (forall data document,
          QFile_contents env path = Some data ->
          fromJson data = Some document ->
          jsonMapFilename QFileInfo_fileName g' = QFileInfo_fileName path
          /\ jsonMapFilepath QFileInfo_filePath g' = QFileInfo_filePath path).
Proof.
  intros Hpath.
  destruct (loadJsonMap_result env path g Hpath)
    as (g' & out & Hl & _ & _ & _ & _ & _ & _ & Hname & Hcases).
  exists g', out. split; [done|]. unfold jsonMapFilename, jsonMapFilepath.
  split.
  - intros [Hnone|(data & Hsome & Hparse)].
    + rewrite Hnone in Hcases. destruct Hcases as (-> & _). done.
    + rewrite Hsome, Hparse in Hcases. destruct Hcases as (-> & _). done.
  - intros data document Hsome Hparse. rewrite Hsome, Hparse in Hcases.
    destruct Hcases as (-> & _). by rewrite Hname.
Qed.

End Reported.

(** ** What [readData] does with a frame *)

Section ReadData.
Context `{QtLib}.

Lemma quint64_incr_differs n : quint64_incr n <> n.
Proof.
  unfold quint64_incr, quint64_modulus. intros Heq.
  assert ((n + 1) mod 2 ^ 64 < 2 ^ 64)%N as Hlt by (apply N.mod_lt; lia).
  destruct (decide (n + 1 < 2 ^ 64)%N) as [Hsmall|Hbig].
  - rewrite N.mod_small in Heq by done. lia.
  - destruct (decide (n + 1 = 2 ^ 64)%N) as [Hmax|Hover].
    + rewrite Hmax, N.Div0.mod_same in Heq. lia.
    + lia.
Qed.

(** X17. [readData] leaves the generator as it is and emits nothing exactly when
    it does not accept the frame, that is when the replay player is open or
    the frame is empty; an accepted frame always changes the generator. *)
Theorem readData_ignores_exactly_rejected_frames env data g :
  readData env data g = Some (tt, g, []) <-> accepted env data = false.
Proof.
  split; [|apply readData_rejected].
  destruct (accepted env data) eqn:Hacc; [|done]. intros Hread. exfalso.
  destruct (m_processInSeparateThread g) eqn:Hthr.
  - rewrite readData_threaded in Hread by done. discriminate.
  - rewrite readData_inline in Hread by done.
    destruct (processFrame_total env data (quint64_incr (m_frameCount g))
                (currentDateTime env)
                (with_frameCount (quint64_incr (m_frameCount g)) g))
      as (g' & out & Hp & Hcount & _).
    rewrite Hp in Hread. injection Hread as -> _. cbn in Hcount.
    symmetry in Hcount. by apply quint64_incr_differs in Hcount.
Qed.

(** X18. The threading mode decides where an accepted frame is processed. In
    threaded mode [readData] starts exactly one worker and does nothing
    else but count the frame: it emits no envelope and leaves the engine
    and the template as they are. On the main thread it starts no worker,
    and emits at most one envelope. *)
Theorem threading_mode_decides env data g :
  accepted env data = true ->
  exists g' out,
    readData env data g = Some (tt, g', out)
    /\ (m_processInSeparateThread g = true ->
        length (startedWorkers out) = 1
        /\ envelopes out = []
        /\ g' = with_frameCount (quint64_incr (m_frameCount g)) g)
    /\ (m_processInSeparateThread g = false ->
        startedWorkers out = [] /\ length (envelopes out) <= 1).
Proof.
  intros Hacc. destruct (m_processInSeparateThread g) eqn:Hthr.
  - rewrite readData_threaded by done. eexists _, _. split; [done|].
    split; [done|]. done.
  - rewrite readData_inline by done.
    set (g1 := with_frameCount (quint64_incr (m_frameCount g)) g).
    destruct (m_opMode g1) eqn:Hmode.
    + destruct (decide (m_jsonMapData g1 = ""%string)) as [Hmap|Hmap].
      * rewrite processFrame_noMap by done. eexists _, _. split; [done|].
        split; [done|]. intros _. cbn. split; [done|lia].
      * rewrite processFrame_kManual by done. cbn zeta. eexists _, _.
        split; [done|]. split; [done|]. intros _.
        destruct (fromJson _); cbn; split; try done; lia.
    + rewrite processFrame_kAutomatic by done. eexists _, _. split; [done|].
      split; [done|]. intros _. destruct (fromJson _); cbn; split; try done; lia.
Qed.

End ReadData.

(** ** What an event never does *)

Section Never.
Context `{QtLib}.

Lemma processFrame_engine env data frame time g g' out :
  processFrame env data frame time g = Some (tt, g', out) ->
  m_engine g' <> m_engine g ->
  m_opMode g = kManual /\ m_jsonMapData g <> ""%string.
Proof.
  destruct (m_opMode g) eqn:Hmode.
  - destruct (decide (m_jsonMapData g = ""%string)) as [Hmap|Hmap]; [|done].
    rewrite processFrame_noMap by done. by intros [= <- <-].
  - rewrite processFrame_kAutomatic by done. by intros [= <- <-].
Qed.

Lemma load_engine env path g :
  exists g' out,
    loadJsonMap env path g = Some (tt, g', out) /\ m_engine g' = m_engine g.
Proof.
  destruct (decide (path = ""%string)) as [->|Hpath]; [by exists g, []|].
  destruct (loadJsonMap_result env path g Hpath)
    as (g' & out & Hl & _ & _ & _ & Heng & _).
  by exists g', out.
Qed.

(** X19. The engine of the generator is used by one kind of event only: a frame
    accepted in manual mode, with a template loaded, and processed on the
    main thread. After every other event (configuration and template
    changes, resets, rejected frames, frames in automatic or threaded mode,
    workers running and delivering) the engine is as before. *)
Theorem engine_changes_only_by_inline_evaluation env ev sys sys' out :
  dispatch env ev sys = Some (sys', out) ->
  m_engine (generator sys') <> m_engine (generator sys) ->
  evaluatesInline env ev (generator sys).
Proof.
  destruct ev as [data| | |path|mode|threaded|json|k|]; cbn [dispatch].
  - unfold runSlot. destruct (readData env data (generator sys))
      as [[[[] g'] out']|] eqn:Hread; [|done].
    intros [= <- <-]. cbn [generator]. revert Hread.
    destruct (accepted env data) eqn:Hacc.
    + destruct (m_processInSeparateThread (generator sys)) eqn:Hthr.
      * rewrite readData_threaded by done. by intros [= <- <-].
      * rewrite readData_inline by done. intros Hp Hne.
        apply processFrame_engine in Hp as [Hmode Hmap]; [|done].
        by exists data.
    + rewrite readData_rejected by done. by intros [= <- <-].
  - by intros [= <- <-].
  - by intros [= <- <-].
  - destruct (load_engine env path (generator sys)) as (g' & out' & Hl & Heng).
    erewrite runSlot_result by done. intros [= <- <-]. cbn [generator]. congruence.
  - by intros [= <- <-].
  - by intros [= <- <-].
  - unfold runSlot, loadJSON, loadJFI. unfold_slot. cbn.
    destruct (_ || _ || _); by intros [= <- <-].
  - destruct (workers sys !! k); [|by intros [= <- <-]].
    destruct (JSONWorker_process _ _ _); [|done]. by intros [= <- <-].
  - destruct (queued sys); [by intros [= <- <-]|].
    unfold runSlot, loadJFI. unfold_slot. cbn.
    destruct (_ || _ || _); by intros [= <- <-].
Qed.

End Never.

(** ** Empty envelopes *)

Section EmptyEnvelope.
Context `{QtLib}.

Lemma load_changes_store_only env path g :
  exists g' out,
    loadJsonMap env path g = Some (tt, g', out)
    /\ startedWorkers out = [] /\ envelopes out = [].
Proof.
  destruct (decide (path = ""%string)) as [->|Hpath]; [by exists g, []|].
  destruct (loadJsonMap_result env path g Hpath)
    as (g' & out & Hl & _ & _ & _ & _ & Henv & Hw & _).
  by exists g', out.
Qed.

Lemma dispatch_queueProper env ev sys sys' out :
  queueProper sys ->
  dispatch env ev sys = Some (sys', out) ->
  queueProper sys'.
Proof.
  intros [Hq Hw]. unfold queueProper.
  destruct ev as [data| | |path|mode|threaded|json|k|]; cbn [dispatch].
  - destruct (accepted env data) eqn:Hacc.
    + destruct (dispatch_accepted env data sys Hacc)
        as (sys1 & out1 & Hd & _ & _ & Hnew).
      cbn [dispatch] in Hd. rewrite Hd. intros [= <- <-].
      unfold runSlot in Hd.
      destruct (readData env data (generator sys)) as [[[[] g'] out']|]; [|done].
      injection Hd as <- <-. cbn [queued workers] in *. split; [done|].
      apply Forall_app. split; [done|].
      apply accepted_true in Hacc as [_ Hdata].
      eapply Forall_impl; [exact Hnew|]. cbn. intros w (_ & -> & _). done.
    + erewrite runSlot_result by (by apply readData_rejected).
      intros [= <- <-]. cbn. by rewrite app_nil_r.
  - intros [= <- <-]. cbn. by rewrite app_nil_r.
  - intros [= <- <-]. cbn. by rewrite app_nil_r.
  - destruct (load_changes_store_only env path (generator sys))
      as (g' & out' & Hl & Hnone & _).
    erewrite runSlot_result by done. intros [= <- <-]. cbn.
    by rewrite Hnone, app_nil_r.
  - intros [= <- <-]. cbn. by rewrite app_nil_r.
  - intros [= <- <-]. cbn. by rewrite app_nil_r.
  - unfold runSlot, loadJSON, loadJFI. unfold_slot. cbn.
    destruct (_ || _ || _); intros [= <- <-]; cbn; by rewrite app_nil_r.
  - destruct (workers sys !! k) as [w|]; [|by intros [= <- <-]].
    destruct (JSONWorker_process_total env (generator sys) w)
      as (out' & Hp & Hready & _).
    rewrite Hp. cbn [mbind option_bind]. intros [= <- <-]. cbn. split.
    + apply Forall_app. split; [done|].
      eapply Forall_impl; [exact Hready|]. cbn. by intros info [_ ?].
    + by apply Forall_delete.
  - destruct (queued sys) as [|info rest] eqn:Hqueue;
      [intros [= <- <-]; by rewrite Hqueue|].
    apply Forall_cons in Hq as [_ Hrest].
    unfold runSlot, loadJFI. unfold_slot. cbn.
    destruct (_ || _ || _); intros [= <- <-]; cbn; by rewrite app_nil_r.
Qed.

Lemma reachable_queueProper sys : Reachable sys -> queueProper sys.
Proof.
  induction 1 as [env settings g out Hnew|env ev sys sys' out _ IH Hd].
  - by split.
  - by eapply dispatch_queueProper.
Qed.

(** X20. In every state the application reaches, the empty envelope is emitted
    only by [reset]: when an event emits it, it is the only thing emitted
    and the frame counter is 0 afterwards. An envelope that a worker built
    is never mistaken for it. *)
Theorem empty_envelope_means_reset env ev sys sys' out :
  Reachable sys ->
  dispatch env ev sys = Some (sys', out) ->
  jsonChanged JFI_Empty ∈ out ->
  out = [jsonChanged JFI_Empty] /\ m_frameCount (generator sys') = 0%N.
Proof.
  intros [Hq _]%reachable_queueProper.
  destruct ev as [data| | |path|mode|threaded|json|k|]; cbn [dispatch].
  - destruct (accepted env data) eqn:Hacc.
    + destruct (dispatch_accepted env data sys Hacc)
        as (sys1 & out1 & Hd & _ & Henv & _).
      cbn [dispatch] in Hd. rewrite Hd. intros [= <- <-] Hin.
      assert (JFI_Empty ∈ envelopes out1) as Hin'.
      { unfold envelopes. apply list_elem_of_omap. by exists (jsonChanged JFI_Empty). }
      rewrite Forall_forall in Henv. by destruct (Henv _ Hin').
    + erewrite runSlot_result by (by apply readData_rejected).
      intros [= <- <-] Hin. by apply elem_of_nil in Hin.
  - by intros [= <- <-].
  - by intros [= <- <-].
  - destruct (load_changes_store_only env path (generator sys))
      as (g' & out' & Hl & _ & Henv).
    erewrite runSlot_result by done. intros [= <- <-] Hin.
    assert (JFI_Empty ∈ envelopes out') as Hin'.
    { unfold envelopes. apply list_elem_of_omap. by exists (jsonChanged JFI_Empty). }
    rewrite Henv in Hin'. by apply elem_of_nil in Hin'.
  - intros [= <- <-] Hin. apply list_elem_of_singleton in Hin. discriminate.
  - intros [= <- <-] Hin. apply list_elem_of_singleton in Hin. discriminate.
  - unfold runSlot, loadJSON, loadJFI. unfold_slot. cbn.
    destruct (_ || _ || _); intros [= <- <-] Hin; [|done].
    apply list_elem_of_singleton in Hin. discriminate.
  - destruct (workers sys !! k) as [w|];
      [|intros [= <- <-] Hin; by apply elem_of_nil in Hin].
    destruct (JSONWorker_process_total env (generator sys) w)
      as (out' & Hp & _ & Henv & _).
    rewrite Hp. cbn [mbind option_bind]. intros [= <- <-] Hin.
    assert (JFI_Empty ∈ envelopes out') as Hin'.
    { unfold envelopes. apply list_elem_of_omap. by exists (jsonChanged JFI_Empty). }
    rewrite Henv in Hin'. by apply elem_of_nil in Hin'.
  - destruct (queued sys) as [|info rest] eqn:Hqueue;
      [intros [= <- <-] Hin; by apply elem_of_nil in Hin|].
    apply Forall_cons in Hq as [Hinfo _].
    unfold runSlot, loadJFI. unfold_slot. cbn.
    destruct (_ || _ || _); intros [= <- <-] Hin; [|done].
    apply list_elem_of_singleton in Hin. by injection Hin as <-.
Qed.

End EmptyEnvelope.

(** ** The MQTT client *)

Lemma list_ascii_of_string_app s1 s2 :
  list_ascii_of_string (s1 +:+ s2)
  = list_ascii_of_string s1 ++ list_ascii_of_string s2.
Proof.
  induction s1 as [|c s1 IH]; [done|].
  change (String c s1 +:+ s2) with (String c (s1 +:+ s2)).
  cbn [list_ascii_of_string app]. by rewrite IH.
Qed.

(** The frames of a message, each followed by a newline. *)
Lemma appendLine_chars data frame :
  list_ascii_of_string (appendLine data frame)
  = list_ascii_of_string data ++ list_ascii_of_string frame ++ [newline].
Proof.
  unfold appendLine. rewrite !list_ascii_of_string_app. by rewrite <- app_assoc.
Qed.

Lemma payload_chars frames data :
  list_ascii_of_string (foldl appendLine data frames)
  = list_ascii_of_string data
    ++ (frames ≫= fun frame => list_ascii_of_string frame ++ [newline]).
Proof.
  revert data. induction frames as [|frame frames IH]; intros data.
  - cbn. by rewrite app_nil_r.
  - cbn [foldl]. rewrite IH, appendLine_chars. cbn [mbind list_bind].
    by rewrite <- !app_assoc.
Qed.

Lemma payload_not_empty frames :
  frames <> [] -> foldl appendLine ""%string frames <> ""%string.
Proof.
  intros Hne Hempty. apply (f_equal list_ascii_of_string) in Hempty.
  rewrite payload_chars in Hempty. destruct frames as [|frame frames]; [done|].
  cbn in Hempty. by destruct (list_ascii_of_string frame).
Qed.

Lemma payload_endsWith_newline frames :
  frames <> [] ->
  QByteArray_endsWith (foldl appendLine ""%string frames) newline = true.
Proof.
  intros Hne. unfold QByteArray_endsWith. rewrite payload_chars. cbn [app].
  destruct (exists_last Hne) as (frames' & frame & ->).
  rewrite bind_app. cbn [mbind list_bind]. rewrite app_nil_r, !app_assoc.
  rewrite last_snoc. by rewrite bool_decide_eq_true_2.
Qed.

Section RelayProperties.
Variable sentMessages_incr : N -> N.

(** X21. A frame is kept for the broker exactly when the device is connected,
    the client is a publisher and the frame is not empty: then it is added
    after the frames already waiting; in every other case the client is as
    before. The frames waiting are never empty. *)
Theorem relay_keeps_publishable_frames connected frame c :
  Forall (fun f => f <> ""%string) (m_frames c) ->
  let c' := onFrameReceived connected frame c in
  Forall (fun f => f <> ""%string) (m_frames c')
  /\ m_connection c' = m_connection c
  /\ m_sentMessages c' = m_sentMessages c
  /\ (connected = true
      /\ m_clientMode (m_connection c) = ClientPublisher
      /\ frame <> ""%string ->
      m_frames c' = m_frames c ++ [frame])
  /\ (~ (connected = true
         /\ m_clientMode (m_connection c) = ClientPublisher
         /\ frame <> ""%string) ->
      c' = c).
Proof.
  intros Hframes. cbn zeta. unfold onFrameReceived.
  destruct connected; cbn [negb];
    [|repeat split; try done; by intros (? & _)].
  destruct (m_clientMode (m_connection c)) eqn:Hmode;
    [|repeat split; try done; by intros (_ & ? & _)].
  destruct (decide (frame = ""%string)) as [->|Hframe].
  - repeat split; try done. by intros (_ & _ & ?).
  - cbn. repeat split; try done.
    + apply Forall_app. by split; [|constructor].
    + intros Hnot. by destruct Hnot.
Qed.

Lemma sendData_nothing c :
  m_frames c = [] ->
  sendData sentMessages_incr c
  = ({| m_connection := m_connection c; m_sentMessages := m_sentMessages c;
        m_frames := [] |}, []).
Proof. intros Hnone. unfold sendData. by rewrite Hnone. Qed.

Lemma sendData_message c :
  m_frames c <> [] ->
  sendData sentMessages_incr c
  = ({| m_connection := m_connection c;
        m_sentMessages := sentMessages_incr (m_sentMessages c);
        m_frames := [] |},
     [publish {| message_id := m_sentMessages c;
                 message_topic := m_topic (m_connection c);
                 message_payload := foldl appendLine ""%string (m_frames c) |}]).
Proof.
  intros Hsome. unfold sendData.
  by rewrite decide_False by (by apply payload_not_empty).
Qed.

(** X22. [sendData] sends the frames waiting as one message and forgets them:
    with no frame waiting nothing is published and the count of messages
    stays; otherwise exactly one message is published, on the topic of the
    client, with the count of messages so far as its id, and its payload
    is the frames in the order of arrival, each followed by a newline.
    Called once more, it publishes nothing. *)
Theorem sendData_publishes_waiting_frames c :
  let c' := (sendData sentMessages_incr c).1 in
  let out := (sendData sentMessages_incr c).2 in
  m_frames c' = []
  /\ m_connection c' = m_connection c
  /\ (m_frames c = [] -> out = [] /\ m_sentMessages c' = m_sentMessages c)
  /\ (m_frames c <> [] ->
      exists payload,
        out = [publish {| message_id := m_sentMessages c;
                          message_topic := m_topic (m_connection c);
                          message_payload := payload |}]
        /\ list_ascii_of_string payload
           = (m_frames c ≫= fun frame => list_ascii_of_string frame ++ [newline])
        /\ m_sentMessages c' = sentMessages_incr (m_sentMessages c))
  /\ sendData sentMessages_incr c' = (c', []).
Proof.
  cbn zeta. destruct (decide (m_frames c = [])) as [Hnone|Hsome].
  - rewrite (sendData_nothing c Hnone). cbn [fst snd m_frames m_connection].
    split; [done|]. split; [done|]. split; [done|]. split; [done|].
    by rewrite sendData_nothing.
  - rewrite (sendData_message c Hsome). cbn [fst snd m_frames m_connection].
    split; [done|]. split; [done|]. split; [done|].
    split; [|by rewrite sendData_nothing].
    intros _. eexists. split; [done|]. split; [|done]. by rewrite payload_chars.
Qed.

(** X23. What a publisher sends, a subscriber on the same topic hands to the
    I/O manager unchanged: the payload of [sendData] already ends with a
    newline, so [onMessageReceived] adds none. *)
Theorem published_frames_reach_subscriber publisher subscriber :
  m_frames publisher <> [] ->
  m_clientMode (m_connection subscriber) = ClientSubscriber ->
  m_topic (m_connection subscriber) = m_topic (m_connection publisher) ->
  exists message,
    (sendData sentMessages_incr publisher).2 = [publish message]
    /\ onMessageReceived message subscriber
       = [processPayload (message_payload message)].
Proof.
  intros Hframes Hmode Htopic. unfold sendData.
  rewrite decide_False by (by apply payload_not_empty).
  eexists. split; [done|]. unfold onMessageReceived. rewrite Hmode.
  cbn [message_topic message_payload]. rewrite decide_True by done.
  by rewrite payload_endsWith_newline.
Qed.

End RelayProperties.

Lemma endsWith_snoc data c :
  QByteArray_endsWith (data +:+ String c EmptyString) c = true.
Proof.
  unfold QByteArray_endsWith. rewrite list_ascii_of_string_app. cbn.
  rewrite last_snoc. by rewrite bool_decide_eq_true_2.
Qed.

(** X24. A payload reaches the I/O manager only from a client in subscriber
    mode whose topic is the topic of the message, at most once, and always
    ending with a newline: it is the payload of the message, with a newline
    added when it did not end with one. *)
Theorem received_payload_ends_with_newline message c :
  length (onMessageReceived message c) <= 1
  /\ forall payload,
       processPayload payload ∈ onMessageReceived message c ->
       m_clientMode (m_connection c) = ClientSubscriber
       /\ m_topic (m_connection c) = message_topic message
       /\ QByteArray_endsWith payload newline = true
       /\ (payload = message_payload message
           \/ payload = message_payload message +:+ String newline EmptyString).
Proof.
  unfold onMessageReceived.
  destruct (m_clientMode (m_connection c)) eqn:Hmode.
  - split; [cbn; lia|]. intros payload Hin. by apply elem_of_nil in Hin.
  - destruct (decide (m_topic (m_connection c) = message_topic message))
      as [Htopic|Htopic].
    + split; [cbn; lia|]. intros payload Hin.
      apply list_elem_of_singleton in Hin. injection Hin as ->.
      do 2 (split; [done|]).
      destruct (QByteArray_endsWith (message_payload message) newline) eqn:Hends.
      * split; [done|by left].
      * split; [apply endsWith_snoc|by right].
    + split; [cbn; lia|]. intros payload Hin. by apply elem_of_nil in Hin.
Qed.

(** X25. The index of an MQTT version and the version it selects agree:
    [setMqttVersion] with index 0 or 1 makes [mqttVersion] return that
    index, with any other index it changes nothing, and setting the index
    that [mqttVersion] returns for a version selects that version. *)
Theorem mqttVersion_index_round_trip versionIndex version version' :
  (versionIndex = 0%Z \/ versionIndex = 1%Z ->
   mqttVersion (setMqttVersion versionIndex version) = versionIndex)
  /\ (versionIndex <> 0%Z -> versionIndex <> 1%Z ->
      setMqttVersion versionIndex version = version)
  /\ setMqttVersion (mqttVersion version') version = version'.
Proof.
  split; [intros [-> | ->]; done|]. split.
  - intros H0 H1. unfold setMqttVersion. by rewrite !decide_False.
  - by destruct version'.
Qed.

(** ** The further properties on the examples *)

Lemma automatic_frame_is_its_document_witness :
  @readData exampleQt deviceConnected "{}" (exampleGenerator 3 kAutomatic false "")
  = Some (tt,
          with_frameCount (quint64_incr 3) (exampleGenerator 3 kAutomatic false ""),
          [jsonChanged (JFI_CreateNew (quint64_incr 3) 1000%N (DocObject ∅))]).
Proof.
  apply (@automatic_frame_is_its_document exampleQt deviceConnected "{}"%string
           (exampleGenerator 3 kAutomatic false "") (DocObject ∅));
    reflexivity.
Defined.

Lemma unparsed_frame_runs_no_program_witness :
  @processFrame exampleQt deviceConnected quote 3 1000%N
    (exampleGenerator 2 kManual false (templateText "%1"))
  = Some (tt, exampleGenerator 2 kManual false (templateText "%1"), []).
Proof.
  apply (@unparsed_frame_runs_no_program exampleQt deviceConnected quote 3%N
           1000%N (exampleGenerator 2 kManual false (templateText "%1"))
           (toStdString (templateText quote))).
  - reflexivity.
  - discriminate.
  - reflexivity.
  - reflexivity.
Defined.

Lemma document_without_groups_witness :
  @processFrame exampleQt deviceConnected "21" 3 1000%N
    (exampleGenerator 2 kManual false "{}")
  = Some (tt, exampleGenerator 2 kManual false "{}",
          [jsonChanged
             (JFI_CreateNew 3 1000%N
                (DocObject (<["g"%string := JsonArray []]>
                              (delete "g"%string
                                 (QJsonDocument_object (DocObject ∅))))))]).
Proof.
  apply (@document_without_groups exampleQt deviceConnected "21"%string 3%N
           1000%N (exampleGenerator 2 kManual false "{}") (toStdString "{}")
           (DocObject ∅)).
  - reflexivity.
  - discriminate.
  - reflexivity.
  - reflexivity.
  - reflexivity.
Defined.

Lemma dataset_without_text_value_witness :
  let d := JsonObject {[ "v"%string := JsonDouble 4617315517961601024 ]} in
  datasetAt (@evaluateDatasets exampleQtEmptyProgram numberDocument 0%N).1 0 0
  = Some (JsonObject
            (<["v"%string := JsonString "undefined"]>
               (delete "v"%string (QJsonValue_toObject d)))).
Proof.
  refine (proj2 (@dataset_without_text_value exampleQtEmptyProgram numberDocument
                   0%N 0 0
                   (JsonObject {[ "v"%string := JsonDouble 4617315517961601024 ]})
                   eq_refl _) eq_refl).
  intros s. vm_compute. discriminate.
Defined.

Lemma worker_and_main_thread_agree_witness :
  exists g' out out',
    @processFrame exampleQt deviceConnected "21" 1 1000%N
      (exampleGenerator 1 kManual false (templateText "%1 * 2"))
    = Some (tt, g', out)
    /\ JSONWorker_process deviceConnected
         (exampleGenerator 1 kManual false (templateText "%1 * 2"))
         {| m_time := 1000%N; m_data := "21"; m_frame := 1 |}
       = Some out'
    /\ readyFrames out' = envelopes out.
Proof.
  apply (@worker_and_main_thread_agree exampleQt deviceConnected
           (exampleGenerator 1 kManual false (templateText "%1 * 2"))
           {| m_time := 1000%N; m_data := "21"; m_frame := 1 |}).
  reflexivity.
Defined.

Lemma saved_path_restores_store_witness :
  exists g' out g0 out0,
    @loadJsonMap exampleQt deviceConnected "map.json"
      (exampleGenerator 5 kAutomatic true "")
    = Some (tt, g', out)
    /\ @Generator_new exampleQt deviceConnected (m_settings g')
       = Some (tt, g0, out0)
    /\ m_jsonMapData g0 = m_jsonMapData g'
    /\ isOpen (m_jsonMap g0) = isOpen (m_jsonMap g')
    /\ m_settings g0 = m_settings g'.
Proof.
  apply (@saved_path_restores_store exampleQt deviceConnected "map.json"%string
           (exampleGenerator 5 kAutomatic true "")).
  - intros Hne. by destruct Hne.
  - discriminate.
Defined.

Lemma successful_load_is_repeatable_witness :
  exists g' out out',
    @loadJsonMap exampleQt deviceConnected "map.json"
      (exampleGenerator 5 kAutomatic true "")
    = Some (tt, g', out)
    /\ m_jsonMapData g' = fromUtf8 (templateText "%1 * 2")
    /\ m_jsonMap g' = {| fileName := "map.json"; isOpen := true |}
    /\ m_settings g' = "map.json"%string
    /\ loadJsonMap deviceConnected "map.json" g' = Some (tt, g', out').
Proof.
  apply (@successful_load_is_repeatable exampleQt deviceConnected
           "map.json"%string (templateText "%1 * 2")
           (templateDocument "%1 * 2") (exampleGenerator 5 kAutomatic true "")).
  - discriminate.
  - reflexivity.
  - reflexivity.
Defined.

Lemma map_file_reported_after_load_witness :
  exists g' out,
    @loadJsonMap exampleQt deviceConnected "missing.json"
      (exampleGenerator 5 kAutomatic true (templateText "%1 * 2"))
    = Some (tt, g', out)
    /\ jsonMapFilename (fun name => name) g' = ""%string
    /\ jsonMapFilepath (fun name => name) g' = ""%string.
Proof.
  destruct (@map_file_reported_after_load exampleQt (fun name => name)
              (fun name => name) deviceConnected "missing.json"%string
              (exampleGenerator 5 kAutomatic true (templateText "%1 * 2")))
    as (g' & out & Hload & Hfail & _).
  - discriminate.
  - exists g', out. split; [exact Hload|]. apply Hfail. left. reflexivity.
Defined.

Lemma threading_mode_decides_witness :
  exists g' out,
    @readData exampleQt deviceConnected "21"
      (exampleGenerator 5 kManual true (templateText "%1 * 2"))
    = Some (tt, g', out)
    /\ length (startedWorkers out) = 1
    /\ envelopes out = [].
Proof.
  destruct (@threading_mode_decides exampleQt deviceConnected "21"%string
              (exampleGenerator 5 kManual true (templateText "%1 * 2")) eq_refl)
    as (g' & out & Hread & Hthreaded & _).
  exists g', out. split; [exact Hread|].
  destruct (Hthreaded eq_refl) as (Hone & Hnone & _). split; [exact Hone|exact Hnone].
Defined.

Lemma engine_changes_only_by_inline_evaluation_witness :
  @evaluatesInline exampleQt deviceConnected (frameReceived "21")
    (exampleGenerator 0 kManual false (templateText counterProgram)).
Proof.
  refine (@engine_changes_only_by_inline_evaluation exampleQt deviceConnected
            (frameReceived "21")
            (exampleSystem (exampleGenerator 0 kManual false (templateText counterProgram)))
            _ _ eq_refl _).
  cbn. discriminate.
Defined.

Lemma empty_envelope_means_reset_witness :
  [jsonChanged JFI_Empty] = [jsonChanged JFI_Empty]
  /\ m_frameCount
       (generator (@Build_System exampleQt
                     (with_frameCount 0 (exampleGenerator 0 kAutomatic false ""))
                     [] [])) = 0%N.
Proof.
  apply (@empty_envelope_means_reset exampleQt deviceConnected deviceChanged
           (exampleSystem (exampleGenerator 0 kAutomatic false ""))).
  - by apply (@Reachable_start exampleQt deviceConnected ""%string _ []).
  - reflexivity.
  - by apply list_elem_of_singleton.
Defined.

Lemma relay_keeps_publishable_frames_witness :
  m_frames (onFrameReceived true "12,22" examplePublisher)
  = ["10,20"; "11,21"; "12,22"]%string.
Proof.
  refine (proj1 (proj2 (proj2 (proj2
            (relay_keeps_publishable_frames true "12,22"%string examplePublisher _))))
          _).
  - repeat constructor; discriminate.
  - repeat split; discriminate.
Defined.

Lemma published_frames_reach_subscriber_witness :
  exists message,
    (sendData quint16_incr examplePublisher).2 = [publish message]
    /\ onMessageReceived message exampleSubscriber
       = [processPayload (message_payload message)].
Proof.
  apply (published_frames_reach_subscriber quint16_incr examplePublisher
           exampleSubscriber).
  - discriminate.
  - reflexivity.
  - reflexivity.
Defined.
